(** * Conditional-access policy simulator: [PolicySimulator.simulate_access]

    A shallow embedding of [src/main.py].  The three JSON documents held by a
    [PolicySimulator] are values of type [json]; Python's dynamic failures
    are results [Raise e]; [print] and [logging] calls are events collected
    in order; the reading of [datetime.now()] is an explicit argument.

    Conventions of the embedding:
    - a [dict] is an association list, looked up from the left (a [dict]
      built by [json.load] has no repeated key);
    - Python's [None] and JSON's [null] are the one value [JNull];
    - JSON numbers are integers (no floating point);
    - a string is the list of the bytes of its UTF-8 encoding;
    - a formatted message is kept structured (constructor and arguments)
      instead of being rendered to text. *)

From Stdlib Require Import List String Ascii Bool Arith ZArith Lia.
From Stdlib Require Import Permutation.
Import ListNotations.
Local Open Scope string_scope.
Local Open Scope list_scope.
Local Open Scope nat_scope.

(** ** Values *)

#[warnings="-register-all"]
Inductive json : Type :=
| JNull
| JBool (b : bool)
| JInt (n : Z)
| JStr (s : string)
| JArr (items : list json)
| JObj (fields : list (string * json)).

Inductive exn : Type :=
| AttributeError
| KeyError
| TypeError
| ValueError.

Inductive result (A : Type) : Type :=
| Ok (a : A)
| Raise (e : exn).

Arguments Ok {A} a.
Arguments Raise {A} e.

Definition bind {A B : Type} (m : result A) (k : A -> result B) : result B :=
  match m with
  | Ok a => k a
  | Raise e => Raise e
  end.

Notation "x <- m ;; k" := (bind m (fun x => k))
  (at level 61, m at next level, right associativity).

(** ** Python primitives on JSON values *)

Module Py.

(** [bool(v)]: the truth value tested by [if v] and [not v]. *)
Definition truthy (v : json) : bool :=
  match v with
  | JNull => false
  | JBool b => b
  | JInt n => negb (Z.eqb n 0)
  | JStr s => negb (String.eqb s "")
  | JArr l => match l with [] => false | _ :: _ => true end
  | JObj l => match l with [] => false | _ :: _ => true end
  end.

Fixpoint lookup (k : string) (fields : list (string * json)) : option json :=
  match fields with
  | [] => None
  | (k', v) :: rest => if String.eqb k k' then Some v else lookup k rest
  end.

(** [d.get(k, default)]; only a [dict] has the method. *)
Definition get (d : json) (k : string) (default : json) : result json :=
  match d with
  | JObj fields =>
      match lookup k fields with
      | Some v => Ok v
      | None => Ok default
      end
  | _ => Raise AttributeError
  end.

(** [d[k]] with a string key. *)
Definition getitem (d : json) (k : string) : result json :=
  match d with
  | JObj fields =>
      match lookup k fields with
      | Some v => Ok v
      | None => Raise KeyError
      end
  | _ => Raise TypeError
  end.

(** [a == b]. *)
Fixpoint eqb (a b : json) {struct a} : bool :=
  match a, b with
  | JNull, JNull => true
  | JBool x, JBool y => Bool.eqb x y
  | JBool x, JInt n => Z.eqb (Z.b2z x) n
  | JInt n, JBool x => Z.eqb n (Z.b2z x)
  | JInt m, JInt n => Z.eqb m n
  | JStr s, JStr t => String.eqb s t
  | JArr l, JArr l' =>
      (fix items (l l' : list json) {struct l} : bool :=
         match l, l' with
         | [], [] => true
         | x :: xs, y :: ys => eqb x y && items xs ys
         | _, _ => false
         end) l l'
  | JObj f, JObj f' =>
      Nat.eqb (List.length f) (List.length f') &&
      forallb (fun kv =>
                 match lookup (fst kv) f' with
                 | Some v' => eqb (snd kv) v'
                 | None => false
                 end) f
  | _, _ => false
  end.

(** [a in b] for strings. *)
Fixpoint substring (a b : string) : bool :=
  String.prefix a b ||
  match b with
  | EmptyString => false
  | String _ b' => substring a b'
  end.

Definition hashable (v : json) : bool :=
  match v with
  | JArr _ | JObj _ => false
  | _ => true
  end.

(** [x in c]. *)
Definition contains (c x : json) : result bool :=
  match c with
  | JArr l => Ok (existsb (fun y => eqb x y) l)
  | JStr s =>
      match x with
      | JStr t => Ok (substring t s)
      | _ => Raise TypeError
      end
  | JObj fields =>
      if hashable x
      then Ok (existsb (fun kv => eqb x (JStr (fst kv))) fields)
      else Raise TypeError
  | _ => Raise TypeError
  end.

Definition chars (s : string) : list json :=
  List.map (fun c => JStr (String c EmptyString)) (list_ascii_of_string s).

(** The elements visited by [for x in v]. *)
Definition iter (v : json) : result (list json) :=
  match v with
  | JArr l => Ok l
  | JObj fields => Ok (List.map (fun kv => JStr (fst kv)) fields)
  | JStr s => Ok (chars s)
  | _ => Raise TypeError
  end.

End Py.

(** ** Times of day *)

(** [datetime.time]: naive, compared as the tuple
    (hour, minute, second, microsecond). *)
Record time : Type := mkTime {
  hour : nat;
  minute : nat;
  second : nat;
  microsecond : nat
}.

(** What [datetime.now()] returns; [.time()] keeps the time of day. *)
Record datetime : Type := mkDatetime {
  year : nat;
  month : nat;
  day : nat;
  time_of : time
}.

Definition lex (c d : comparison) : comparison :=
  match c with
  | Eq => d
  | _ => c
  end.

Definition time_cmp (a b : time) : comparison :=
  lex (hour a ?= hour b)
    (lex (minute a ?= minute b)
       (lex (second a ?= second b) (microsecond a ?= microsecond b))).

(** [a <= b] on times. *)
Definition time_le (a b : time) : bool :=
  match time_cmp a b with
  | Gt => false
  | _ => true
  end.

(** [a < b] on times. *)
Definition time_lt (a b : time) : bool :=
  match time_cmp a b with
  | Lt => true
  | _ => false
  end.

(** ** [datetime.strptime(s, "%H:%M").time()]

    The standard library compiles the format to the regular expression
    [(2[0-3]|[0-1]\d|\d):([0-5]\d|\d)], takes the first match at the start
    of the text (alternatives in the order written, with backtracking) and
    rejects the text when it does not match or when characters remain after
    the match.  The bracketed classes and the literal 2 are ASCII; [\d] is
    any decimal digit of Unicode (category Nd), and [int] reads the matched
    digits by their decimal values.  The parsed time has zero seconds and
    microseconds. *)

Module Strptime.

(** One character of a text, held as the bytes of its UTF-8 encoding:
    its code point and the bytes left. *)
Definition continuation (c : ascii) : option N :=
  let b := N_of_ascii c in
  if ((128 <=? b) && (b <? 192))%N then Some (b - 128)%N else None.

Definition code_point (s : list ascii) : option (N * list ascii) :=
  match s with
  | [] => None
  | c :: rest =>
      let b := N_of_ascii c in
      if (b <? 128)%N then Some (b, rest)
      else if (b <? 192)%N then None
      else if (b <? 224)%N then
        match rest with
        | c1 :: r =>
            match continuation c1 with
            | Some x1 => Some (((b - 192) * 64 + x1)%N, r)
            | None => None
            end
        | _ => None
        end
      else if (b <? 240)%N then
        match rest with
        | c1 :: c2 :: r =>
            match continuation c1, continuation c2 with
            | Some x1, Some x2 =>
                Some ((((b - 224) * 64 + x1) * 64 + x2)%N, r)
            | _, _ => None
            end
        | _ => None
        end
      else if (b <? 248)%N then
        match rest with
        | c1 :: c2 :: c3 :: r =>
            match continuation c1, continuation c2, continuation c3 with
            | Some x1, Some x2, Some x3 =>
                Some (((((b - 240) * 64 + x1) * 64 + x2) * 64 + x3)%N, r)
            | _, _, _ => None
            end
        | _ => None
        end
      else None
  end.

(** The decimal digits of Unicode 14.0 (the table of [unicodedata] in
    CPython 3.11): they come in runs of ten, zero to nine, that start at
    these code points. *)
Definition decimal_runs : list N :=
  [ 48; 1632; 1776; 1984; 2406; 2534; 2662; 2790; 2918; 3046; 3174; 3302;
    3430; 3558; 3664; 3792; 3872; 4160; 4240; 6112; 6160; 6470; 6608; 6784;
    6800; 6992; 7088; 7232; 7248; 42528; 43216; 43264; 43472; 43504; 43600;
    44016; 65296; 66720; 68912; 69734; 69872; 69942; 70096; 70384; 70736;
    70864; 71248; 71360; 71472; 71904; 72016; 72784; 73040; 73120; 92768;
    92864; 93008; 120782; 120792; 120802; 120812; 120822; 123200; 123632;
    125264; 130032 ]%N.

Fixpoint decimal_in (runs : list N) (cp : N) : option nat :=
  match runs with
  | [] => None
  | start :: more =>
      if ((start <=? cp) && (cp <? start + 10))%N
      then Some (N.to_nat (cp - start))
      else decimal_in more cp
  end.

(** The value of a code point that is a decimal digit. *)
Definition decimal_value (cp : N) : option nat :=
  decimal_in decimal_runs cp.

(** An ASCII digit, as the classes [[0-3]], [[0-1]] and [[0-5]] and the
    literal [2] take them. *)
Definition ascii_digit (c : ascii) : option nat :=
  let n := nat_of_ascii c in
  if (48 <=? n) && (n <=? 57) then Some (n - 48) else None.

(** One alternative of a group: the value read and the text left. *)
Definition alt : Type := option (nat * list ascii).

(** [\d]: one decimal digit of any script. *)
Definition digit (s : list ascii) : alt :=
  match code_point s with
  | Some (cp, rest) =>
      match decimal_value cp with
      | Some d => Some (d, rest)
      | None => None
      end
  | None => None
  end.

(** [[a][b]]: two ASCII digits, the first accepted by [first] and the
    second by [second]. *)
Definition class_class (first second : nat -> bool) (s : list ascii) : alt :=
  match s with
  | c1 :: c2 :: rest =>
      match ascii_digit c1, ascii_digit c2 with
      | Some a, Some b =>
          if first a && second b then Some (10 * a + b, rest) else None
      | _, _ => None
      end
  | _ => None
  end.

(** [[a]\d]: an ASCII digit accepted by [first], then any decimal digit. *)
Definition class_digit (first : nat -> bool) (s : list ascii) : alt :=
  match s with
  | c1 :: rest =>
      match ascii_digit c1 with
      | Some a =>
          if first a then
            match digit rest with
            | Some (b, rest') => Some (10 * a + b, rest')
            | None => None
            end
          else None
      | None => None
      end
  | [] => None
  end.

(** [2[0-3]|[0-1]\d|\d] *)
Definition hour_alts (s : list ascii) : list alt :=
  [ class_class (Nat.eqb 2) (fun b => b <=? 3) s;
    class_digit (fun a => a <=? 1) s;
    digit s ].

(** [[0-5]\d|\d] *)
Definition minute_alts (s : list ascii) : list alt :=
  [ class_digit (fun a => a <=? 5) s;
    digit s ].

(** The first alternative whose continuation matches. *)
Fixpoint first_match {A : Type} (alts : list alt)
    (k : nat -> list ascii -> option A) : option A :=
  match alts with
  | [] => None
  | None :: more => first_match more k
  | Some (v, rest) :: more =>
      match k v rest with
      | Some r => Some r
      | None => first_match more k
      end
  end.

Definition colon (s : list ascii) : option (list ascii) :=
  match s with
  | c :: rest => if Ascii.eqb c ":" then Some rest else None
  | [] => None
  end.

(** [format_regex.match(data_string)]: hour, minute, unconverted rest. *)
Definition regex_match (s : list ascii) : option (nat * nat * list ascii) :=
  first_match (hour_alts s) (fun h s1 =>
    match colon s1 with
    | Some s2 =>
        first_match (minute_alts s2) (fun m s3 => Some (h, m, s3))
    | None => None
    end).

Definition parse (s : string) : result time :=
  match regex_match (list_ascii_of_string s) with
  | None => Raise ValueError
  | Some (h, m, []) => Ok (mkTime h m 0 0)
  | Some (_, _, _ :: _) => Raise ValueError
  end.

(** The first argument must be a [str]. *)
Definition strptime (v : json) : result time :=
  match v with
  | JStr s => parse s
  | _ => Raise TypeError
  end.

End Strptime.

(** ** Output: [print] and [logging] *)

Inductive level : Type := INFO | WARNING | ERROR.

Inductive message : Type :=
| LoadedFrom (path : string)
| FileNotFound (path : string)
| InvalidJson (path : string)
| LoadFailed (path : string)
| DataNotLoaded
| UserNotFound (user_id : string)
| PolicyGranted (name : json) (user_id : string)
| PolicyNotGranting (name : json) (user_id : string)
| AccessDenied (user_id : string).

Inductive event : Type :=
| Printed (m : message)
| Logged (lvl : level) (m : message).

(** A computation that writes events and returns or raises; the events
    written before an exception are kept. *)
Definition M (A : Type) : Type := (list event * result A)%type.

Definition ret {A : Type} (a : A) : M A := ([], Ok a).

Definition lift {A : Type} (r : result A) : M A := ([], r).

Definition print (m : message) : M unit := ([Printed m], Ok tt).

Definition logging (lvl : level) (m : message) : M unit :=
  ([Logged lvl m], Ok tt).

Definition mbind {A B : Type} (m : M A) (k : A -> M B) : M B :=
  match m with
  | (out, Ok a) => let (out', r) := k a in (out ++ out', r)
  | (out, Raise e) => (out, Raise e)
  end.

Notation "x <~ m ;; k" := (mbind m (fun x => k))
  (at level 61, m at next level, right associativity).

Definition output {A : Type} (m : M A) : list event := fst m.
Definition outcome {A : Type} (m : M A) : result A := snd m.

(** ** The simulator *)

(** What opening and decoding a file gives. *)
Inductive file : Type :=
| Json (data : json)
| Missing
| Malformed
| Unreadable.

Record PolicySimulator : Type := mkPolicySimulator {
  policy_file : string;
  user_file : string;
  context_file : string;
  policies : json;
  users : json;
  context : json
}.

Definition _load_data (fs : string -> file) (file_path : string) : M json :=
  match fs file_path with
  | Json data =>
      _ <~ logging INFO (LoadedFrom file_path) ;;
      ret data
  | Missing =>
      _ <~ logging ERROR (FileNotFound file_path) ;;
      _ <~ print (FileNotFound file_path) ;;
      ret (JObj [])
  | Malformed =>
      _ <~ logging ERROR (InvalidJson file_path) ;;
      _ <~ print (InvalidJson file_path) ;;
      ret (JObj [])
  | Unreadable =>
      _ <~ logging ERROR (LoadFailed file_path) ;;
      _ <~ print (LoadFailed file_path) ;;
      ret (JObj [])
  end.

Definition __init__ (fs : string -> file)
    (policy_file user_file context_file : string) : M PolicySimulator :=
  p <~ _load_data fs policy_file ;;
  u <~ _load_data fs user_file ;;
  c <~ _load_data fs context_file ;;
  ret (mkPolicySimulator policy_file user_file context_file p u c).

(** [next((user for user in items if user["id"] == user_id), None)] *)
Fixpoint first_user (user_id : string) (items : list json) : result json :=
  match items with
  | [] => Ok JNull
  | user :: rest =>
      id <- Py.getitem user "id" ;;
      if Py.eqb id (JStr user_id) then Ok user else first_user user_id rest
  end.

Definition find_user (users : json) (user_id : string) : result json :=
  l <- Py.get users "users" (JArr []) ;;
  items <- Py.iter l ;;
  first_user user_id items.

(** What one turn of the loop over the policies does: it goes on to the
    next policy silently, logs that the policy applied without granting and
    goes on, or grants and leaves the loop. *)
Inductive verdict : Type :=
| Next
| NotGranting (name : json)
| Granting (name : json).

Section Loop.

Variable user_id : string.
Variable context_data : json.
Variable current_time : time.

Definition policy_enabled (policy : json) : result bool :=
  status <- Py.get policy "status" JNull ;;
  Ok (Py.eqb status (JStr "enabled")).

Definition policy_applies (policy : json) : result bool :=
  us <- Py.get policy "users" (JArr []) ;;
  Py.contains us (JStr user_id).

Definition time_condition (conditions : json) : result bool :=
  time_restrictions <- Py.get conditions "time" (JObj []) ;;
  if Py.truthy time_restrictions then
    s <- Py.get time_restrictions "start_time" (JStr "00:00") ;;
    start_time <- Strptime.strptime s ;;
    e <- Py.get time_restrictions "end_time" (JStr "23:59") ;;
    end_time <- Strptime.strptime e ;;
    Ok (time_le start_time current_time && time_le current_time end_time)
  else Ok true.

Definition location_condition (conditions : json) : result bool :=
  allowed_locations <- Py.get conditions "location" (JArr []) ;;
  if Py.truthy allowed_locations then
    user_location <- Py.get context_data "location" JNull ;;
    Py.contains allowed_locations user_location
  else Ok true.

Definition device_health_condition (conditions : json) : result bool :=
  required_device_health <- Py.get conditions "device_health" (JStr "") ;;
  if Py.truthy required_device_health then
    current_device_health <- Py.get context_data "device_health" JNull ;;
    Ok (Py.eqb current_device_health required_device_health)
  else Ok true.

(** The three conditions are each computed, then combined. *)
Definition conditions_met (policy : json) : result bool :=
  conditions <- Py.get policy "conditions" (JObj []) ;;
  time_condition_met <- time_condition conditions ;;
  location_condition_met <- location_condition conditions ;;
  device_health_met <- device_health_condition conditions ;;
  Ok (time_condition_met && location_condition_met && device_health_met).

Definition grants_access (policy : json) : result bool :=
  grant_controls <- Py.get policy "grant_controls" (JObj []) ;;
  access <- Py.get grant_controls "access" JNull ;;
  Ok (Py.eqb access (JStr "grant")).

Definition policy_name (policy : json) : result json :=
  Py.get policy "name" JNull.

(** The body of [for policy in ...]. *)
Definition policy_body (policy : json) : result verdict :=
  enabled <- policy_enabled policy ;;
  if negb enabled then Ok Next
  else
    applies <- policy_applies policy ;;
    if applies then
      met <- conditions_met policy ;;
      if met then
        grant <- grants_access policy ;;
        name <- policy_name policy ;;
        if grant then Ok (Granting name) else Ok (NotGranting name)
      else Ok Next
    else Ok Next.

(** The loop; its value is [access_granted] when the loop is left. *)
Fixpoint scan (ps : list json) : M bool :=
  match ps with
  | [] => ret false
  | policy :: rest =>
      v <~ lift (policy_body policy) ;;
      match v with
      | Next => scan rest
      | NotGranting name =>
          _ <~ logging INFO (PolicyNotGranting name user_id) ;;
          scan rest
      | Granting name =>
          _ <~ logging INFO (PolicyGranted name user_id) ;;
          ret true
      end
  end.

End Loop.

Definition data_loaded (self : PolicySimulator) : bool :=
  Py.truthy (policies self) && Py.truthy (users self) &&
  Py.truthy (context self).

(** The list the loop runs over. *)
Definition policy_list (self : PolicySimulator) : result (list json) :=
  l <- Py.get (policies self) "policies" (JArr []) ;;
  Py.iter l.

(** [clock] is what [datetime.now()] returns during the call. *)
Definition simulate_access (self : PolicySimulator) (clock : datetime)
    (user_id : string) : M bool :=
  if negb (Py.truthy (policies self)) || negb (Py.truthy (users self))
     || negb (Py.truthy (context self))
  then
    _ <~ print DataNotLoaded ;;
    _ <~ logging ERROR DataNotLoaded ;;
    ret false
  else
    user_data <~ lift (find_user (users self) user_id) ;;
    if negb (Py.truthy user_data) then
      _ <~ print (UserNotFound user_id) ;;
      _ <~ logging WARNING (UserNotFound user_id) ;;
      ret false
    else
      context_data <~ lift (Py.get (context self) "context" (JObj [])) ;;
      let current_time := time_of clock in
      ps <~ lift (policy_list self) ;;
      access_granted <~ scan user_id context_data current_time ps ;;
      _ <~ (if negb access_granted
            then logging INFO (AccessDenied user_id)
            else ret tt) ;;
      ret access_granted.

(** What [main] does once the three files are known to exist. *)
Definition run (fs : string -> file)
    (policy_file user_file context_file : string) (clock : datetime)
    (user_id : string) : M bool :=
  simulator <~ __init__ fs policy_file user_file context_file ;;
  simulate_access simulator clock user_id.

(** ** Sample data *)

Module Sample.

Definition policy (name : string) (status : string) (subjects : list string)
    (conditions : list (string * json)) (access : string) : json :=
  JObj [ ("name", JStr name);
         ("status", JStr status);
         ("users", JArr (List.map JStr subjects));
         ("conditions", JObj conditions);
         ("grant_controls", JObj [("access", JStr access)]) ].

Definition window (start_time end_time : string) : string * json :=
  ("time", JObj [("start_time", JStr start_time);
                 ("end_time", JStr end_time)]).

Definition locations (l : list string) : string * json :=
  ("location", JArr (List.map JStr l)).

Definition policies_doc (ps : list json) : json :=
  JObj [("policies", JArr ps)].

Definition users_doc (ids : list string) : json :=
  JObj [("users", JArr (List.map (fun i => JObj [("id", JStr i)]) ids))].

Definition context_doc (fields : list (string * json)) : json :=
  JObj [("context", JObj fields)].

Definition simulator (ps : list json) (ids : list string)
    (ctx : list (string * json)) : PolicySimulator :=
  mkPolicySimulator "policies.json" "users.json" "context.json"
    (policies_doc ps) (users_doc ids) (context_doc ctx).

(** A simulator whose context file held the empty object. *)
Definition without_context (ps : list json) (ids : list string)
    : PolicySimulator :=
  mkPolicySimulator "policies.json" "users.json" "context.json"
    (policies_doc ps) (users_doc ids) (JObj []).

Definition at_time (h m : nat) : datetime :=
  mkDatetime 2024 1 15 (mkTime h m 0 0).

Definition noon : datetime := at_time 12 0.

(** The policy of the end-to-end example of the specification. *)
Definition P1 : json := policy "P1" "enabled" ["u1"] [locations ["USA"]] "grant".

Definition P2 : json := policy "P2" "enabled" ["u1"] [] "grant".

Definition P3 : json := policy "P3" "enabled" ["u1"] [] "grant".

Definition Audit : json := policy "Audit" "enabled" ["u1"] [] "report".

Definition Off : json := policy "Off" "disabled" ["u1"] [] "grant".

Definition Other : json := policy "Other" "enabled" ["u2"] [] "grant".

Definition Broken : json :=
  policy "Broken" "enabled" ["u1"] [window "8am" "18:00"] "grant".

Definition Loose : json :=
  policy "Loose" "enabled" ["u1"] [window "8:5" "18:00"] "grant".

Definition Office : json :=
  policy "Office" "enabled" ["u1"] [window "08:00" "18:00"] "grant".

Definition Night : json :=
  policy "Night" "enabled" ["u1"] [window "22:00" "06:00"] "grant".

(** Files on disk: the policy, user and context files. *)
Definition disk (p u c : file) (path : string) : file :=
  if String.eqb path "policies.json" then p
  else if String.eqb path "users.json" then u
  else if String.eqb path "context.json" then c
  else Missing.

Definition usa : list (string * json) := [("location", JStr "USA")].
Definition canada : list (string * json) := [("location", JStr "Canada")].

End Sample.

(** ** Vocabulary of the properties *)

Section Notions.

Variable user_id : string.
Variable context_data : json.
Variable current_time : time.

(** The policy is enabled, targets the subject, has its conditions
    satisfied and has access "grant". *)
Definition qualifies (p : json) : Prop :=
  policy_enabled p = Ok true /\
  policy_applies user_id p = Ok true /\
  conditions_met context_data current_time p = Ok true /\
  grants_access p = Ok true.

(** The policy is enabled, targets the subject, has its conditions
    satisfied and an access other than "grant". *)
Definition matches_without_granting (p : json) : Prop :=
  policy_enabled p = Ok true /\
  policy_applies user_id p = Ok true /\
  conditions_met context_data current_time p = Ok true /\
  grants_access p = Ok false.

(** The turn of the loop for this policy ends without an exception. *)
Definition examined (p : json) : Prop :=
  exists v, policy_body user_id context_data current_time p = Ok v.

(** The loop goes past this policy: no exception and no grant. *)
Definition passed (p : json) : Prop :=
  examined p /\ ~ qualifies p.

(** An entry of the loop is for a policy that matched: the one that
    granted, or one that did not grant. *)
Definition entry_for (ps : list json) (e : event) : Prop :=
  exists name p,
    In p ps /\ policy_name p = Ok name /\
    ((e = Logged INFO (PolicyGranted name user_id) /\ qualifies p) \/
     (e = Logged INFO (PolicyNotGranting name user_id) /\
      matches_without_granting p)).

End Notions.

(** The policy is disabled, or enabled and not targeting the subject. *)
Definition inert (user_id : string) (p : json) : Prop :=
  policy_enabled p = Ok false \/
  (policy_enabled p = Ok true /\ policy_applies user_id p = Ok false).

(** The subject is resolved in the directory. *)
Definition known_subject (users : json) (user_id : string) : Prop :=
  exists user, find_user users user_id = Ok user /\ Py.truthy user = true.

(** The directory lists the subject: a record with the subject's id, after
    records with other ids. *)
Definition listed_subject (users : json) (user_id : string) : Prop :=
  exists pre fields post,
    Py.get users "users" (JArr []) = Ok (JArr (pre ++ JObj fields :: post)) /\
    Forall (fun u => exists id, Py.getitem u "id" = Ok id /\
                                Py.eqb id (JStr user_id) = false) pre /\
    Py.lookup "id" fields = Some (JStr user_id).

(** The directory is a dict whose "users" entry is a list of records with an
    "id", none of them the subject's. *)
Definition absent_subject (users : json) (user_id : string) : Prop :=
  exists l,
    Py.get users "users" (JArr []) = Ok (JArr l) /\
    Forall (fun u => exists id, Py.getitem u "id" = Ok id /\
                                Py.eqb id (JStr user_id) = false) l.

(** The call gets to the loop, with this context and this policy list. *)
Definition reaches_loop (self : PolicySimulator) (user_id : string)
    (context_data : json) (ps : list json) : Prop :=
  data_loaded self = true /\
  known_subject (users self) user_id /\
  Py.get (context self) "context" (JObj []) = Ok context_data /\
  policy_list self = Ok ps.

(** What [_load_data] returns for a path. *)
Definition loaded (fs : string -> file) (path : string) : json :=
  match fs path with
  | Json data => data
  | _ => JObj []
  end.

(** The file did not load. *)
Definition failed (f : file) : bool :=
  match f with
  | Json _ => false
  | _ => true
  end.

(** The policy named by the "granted access" entry of the output. *)
Fixpoint authorizing (out : list event) : option json :=
  match out with
  | [] => None
  | Logged INFO (PolicyGranted name _) :: _ => Some name
  | _ :: rest => authorizing rest
  end.

(** [a] comes strictly before [b] in the day. *)
Definition time_before (a b : time) : Prop :=
  hour a < hour b \/
  (hour a = hour b /\
   (minute a < minute b \/
    (minute a = minute b /\
     (second a < second b \/
      (second a = second b /\ microsecond a < microsecond b))))).

(** The time strings of a condition block: both are text, read with their
    defaults, and parse to [start_time] and [end_time]. *)
Definition time_window (conditions : json) (start_time end_time : time)
    : Prop :=
  exists tr s e,
    Py.get conditions "time" (JObj []) = Ok tr /\
    Py.truthy tr = true /\
    Py.get tr "start_time" (JStr "00:00") = Ok (JStr s) /\
    Py.get tr "end_time" (JStr "23:59") = Ok (JStr e) /\
    Strptime.parse s = Ok start_time /\
    Strptime.parse e = Ok end_time.

(** A text that the time parser rejects. *)
Definition rejected (v : json) : Prop :=
  exists s, v = JStr s /\ Strptime.parse s = Raise ValueError.

(** A condition block with a time entry whose start or end value is a
    text that the parser rejects; [start_value] is the start value read,
    with its default. *)
Definition malformed_time (conditions : json) (start_value : json) : Prop :=
  exists tr end_value,
    Py.get conditions "time" (JObj []) = Ok tr /\
    Py.truthy tr = true /\
    Py.get tr "start_time" (JStr "00:00") = Ok start_value /\
    Py.get tr "end_time" (JStr "23:59") = Ok end_value /\
    (rejected start_value \/ rejected end_value).

(** The policy carries such a condition block. *)
Definition has_malformed_time (p : json) (start_value : json) : Prop :=
  exists conditions,
    Py.get p "conditions" (JObj []) = Ok conditions /\
    malformed_time conditions start_value.

(** The exception of a malformed time entry: the start value is parsed
    first, and a value that is not a text is a [TypeError]. *)
Definition time_error (start_value : json) : exn :=
  match start_value with
  | JStr _ => ValueError
  | _ => TypeError
  end.

(** The window as the specification words it: times taken at the
    resolution of hours and minutes, both ends included. *)
Definition minute_of (t : time) : time :=
  mkTime (hour t) (minute t) 0 0.

Definition spec_window (start_time end_time evaluation_time : time) : bool :=
  time_le start_time (minute_of evaluation_time)
  && time_le (minute_of evaluation_time) end_time.

(** The policy has no time entry to check. *)
Definition timeless (p : json) : Prop :=
  forall conditions tr,
    Py.get p "conditions" (JObj []) = Ok conditions ->
    Py.get conditions "time" (JObj []) = Ok tr ->
    Py.truthy tr = false.

(** Two digits, a colon, two digits: hour at most 23, minute at most 59. *)
Definition valid_HHMM (s : string) : bool :=
  match list_ascii_of_string s with
  | [h1; h2; c; m1; m2] =>
      match Strptime.ascii_digit h1, Strptime.ascii_digit h2,
            Strptime.ascii_digit m1, Strptime.ascii_digit m2 with
      | Some a, Some b, Some x, Some y =>
          (10 * a + b <=? 23) && Ascii.eqb c ":" && (10 * x + y <=? 59)
      | _, _, _, _ => false
      end
  | _ => false
  end.

(** ** The command line: [main] *)

(** The parsed arguments ([args] in [main]). *)
Record Namespace : Type := mkNamespace {
  arg_policy_file : string;
  arg_user_file : string;
  arg_context_file : string;
  arg_user_id : string
}.

Inductive main_message : Type :=
| PolicyFileMissing (path : string)
| UserFileMissing (path : string)
| ContextFileMissing (path : string)
| AccessGrantedTo (user_id : string)
| AccessDeniedTo (user_id : string).

(** What [main] writes: its own messages and, in between, what the
    simulator writes. *)
Inductive main_event : Type :=
| MainPrinted (m : main_message)
| MainLogged (lvl : level) (m : main_message)
| Inner (e : event).

(** [main] after [parse_args]; [path_exists] is [os.path.exists] and [fs]
    what opening a file gives, two readings of the file system that the
    code makes one after the other. *)
Definition main (path_exists : string -> bool) (fs : string -> file)
    (clock : datetime) (args : Namespace)
    : list main_event * result unit :=
  if negb (path_exists (arg_policy_file args)) then
    ([MainPrinted (PolicyFileMissing (arg_policy_file args));
      MainLogged ERROR (PolicyFileMissing (arg_policy_file args))], Ok tt)
  else if negb (path_exists (arg_user_file args)) then
    ([MainPrinted (UserFileMissing (arg_user_file args));
      MainLogged ERROR (UserFileMissing (arg_user_file args))], Ok tt)
  else if negb (path_exists (arg_context_file args)) then
    ([MainPrinted (ContextFileMissing (arg_context_file args));
      MainLogged ERROR (ContextFileMissing (arg_context_file args))], Ok tt)
  else
    match run fs (arg_policy_file args) (arg_user_file args)
            (arg_context_file args) clock (arg_user_id args) with
    | (out, Ok access_granted) =>
        (List.map Inner out ++
         [MainPrinted (if access_granted
                       then AccessGrantedTo (arg_user_id args)
                       else AccessDeniedTo (arg_user_id args))], Ok tt)
    | (out, Raise e) => (List.map Inner out, Raise e)
    end.

(** ** Further vocabulary *)

(** The turn of the loop for this policy grants. *)
Definition grantsb (user_id : string) (context_data : json)
    (current_time : time) (p : json) : bool :=
  match policy_body user_id context_data current_time p with
  | Ok (Granting _) => true
  | _ => false
  end.

Definition is_text (v : json) : bool :=
  match v with JStr _ => true | _ => false end.

Definition is_list (v : json) : bool :=
  match v with JArr _ => true | _ => false end.

Definition is_dict (v : json) : bool :=
  match v with JObj _ => true | _ => false end.

(** A text that the time parser accepts. *)
Definition is_time_text (v : json) : bool :=
  match v with
  | JStr s => match Strptime.parse s with Ok _ => true | Raise _ => false end
  | _ => false
  end.

(** A key is absent or its value passes the check. *)
Definition optional (check : json -> bool) (k : string)
    (fields : list (string * json)) : bool :=
  match Py.lookup k fields with
  | None => true
  | Some v => check v
  end.

(** The shapes of the documents: a policy is a dict whose "users", when
    there, is a list, whose "conditions", when there, is a dict with "time"
    a dict of start and end values passing [time_ok] and "location" a list,
    and whose "grant_controls", when there, is a dict. *)
Definition shaped_time (time_ok : json -> bool) (v : json) : bool :=
  match v with
  | JObj tr => optional time_ok "start_time" tr && optional time_ok "end_time" tr
  | _ => false
  end.

Definition shaped_conditions (time_ok : json -> bool) (v : json) : bool :=
  match v with
  | JObj c => optional (shaped_time time_ok) "time" c
              && optional is_list "location" c
  | _ => false
  end.

Definition shaped_policy (time_ok : json -> bool) (v : json) : bool :=
  match v with
  | JObj f => optional is_list "users" f
              && optional (shaped_conditions time_ok) "conditions" f
              && optional is_dict "grant_controls" f
  | _ => false
  end.

Definition shaped_policies (time_ok : json -> bool) (v : json) : bool :=
  match v with
  | JObj f =>
      optional (fun l => match l with
                         | JArr ps => forallb (shaped_policy time_ok) ps
                         | _ => false
                         end) "policies" f
  | _ => false
  end.

(** A directory: a dict whose "users", when there, is a list of dicts with
    an "id". *)
Definition shaped_user (v : json) : bool :=
  match v with
  | JObj f => match Py.lookup "id" f with Some _ => true | None => false end
  | _ => false
  end.

Definition shaped_users (v : json) : bool :=
  match v with
  | JObj f =>
      optional (fun l => match l with
                         | JArr us => forallb shaped_user us
                         | _ => false
                         end) "users" f
  | _ => false
  end.

(** A context document: a dict whose "context", when there, is a dict. *)
Definition shaped_context (v : json) : bool :=
  match v with
  | JObj f => optional is_dict "context" f
  | _ => false
  end.

Definition shaped (time_ok : json -> bool) (self : PolicySimulator) : bool :=
  shaped_policies time_ok (policies self) && shaped_users (users self)
  && shaped_context (context self).

(** The computation returns, or raises an exception among the allowed. *)
Definition raises_only (allowed : exn -> Prop) {A : Type} (r : result A)
    : Prop :=
  match r with
  | Ok _ => True
  | Raise e => allowed e
  end.

(** The policy asks nothing of the context: no location list and no device
    health to check. *)
Definition contextless (p : json) : Prop :=
  forall conditions,
    Py.get p "conditions" (JObj []) = Ok conditions ->
    (forall l, Py.get conditions "location" (JArr []) = Ok l ->
               Py.truthy l = false) /\
    (forall d, Py.get conditions "device_health" (JStr "") = Ok d ->
               Py.truthy d = false).

(** An "applied but does not grant" entry. *)
Definition is_note (user_id : string) (e : event) : Prop :=
  exists name, e = Logged INFO (PolicyNotGranting name user_id).

(** More sample data. *)
Module Fixture.

Definition args : Namespace :=
  mkNamespace "policies.json" "users.json" "context.json" "u1".

Definition present (path : string) : bool := true.

(** Only the policy and user files are there. *)
Definition no_context_file (path : string) : bool :=
  negb (String.eqb path "context.json").

(** A policy whose "users" is a text instead of a list. *)
Definition ForUser10 : json :=
  JObj [ ("name", JStr "ForUser10");
         ("status", JStr "enabled");
         ("users", JStr "user10");
         ("grant_controls", JObj [("access", JStr "grant")]) ].

(** A time entry whose start is a number and whose end is a bad text. *)
Definition Numeric : json :=
  JObj [ ("name", JStr "Numeric");
         ("status", JStr "enabled");
         ("users", JArr [JStr "u1"]);
         ("conditions",
          JObj [("time", JObj [("start_time", JInt 800);
                               ("end_time", JStr "8am")])]);
         ("grant_controls", JObj [("access", JStr "grant")]) ].

(** A text given by the bytes of its UTF-8 encoding. *)
Definition text (bytes : list nat) : string :=
  string_of_list_ascii (List.map ascii_of_nat bytes).

(** A disabled policy with nothing right in it. *)
Definition Wreck : json :=
  JObj [ ("status", JStr "Enabled");
         ("users", JInt 3);
         ("conditions", JStr "none") ].

End Fixture.

(** ** Tactics for concrete data *)

(** Closing the side conditions of a statement at concrete data. *)
Ltac refute_qualifies :=
  let H := fresh "H" in
  intros H; unfold qualifies in H;
  destruct H as (?He & ?Ha & ?Hc & ?Hg);
  first [ discriminate He | discriminate Ha | discriminate Hc
        | discriminate Hg ].

Ltac concrete :=
  unfold reaches_loop, known_subject, passed, examined, qualifies,
    matches_without_granting, inert, absent_subject;
  repeat match goal with
         | |- _ /\ _ => split
         | |- Forall _ [] => constructor
         | |- Forall _ (_ :: _) => constructor
         | |- Forall ?P ?l =>
             let l' := eval cbv in l in progress change (Forall P l')
         | |- ~ _ => refute_qualifies
         | |- exists _, _ => eexists
         | |- _ = _ => reflexivity
         end.

Ltac concrete_time :=
  unfold has_malformed_time, malformed_time, rejected, time_window;
  repeat match goal with
         | |- _ /\ _ => split
         | |- _ \/ _ =>
             first [ left; eexists; split; reflexivity
                   | right; eexists; split; reflexivity
                   | left; reflexivity
                   | right; reflexivity ]
         | |- exists _, _ => eexists
         | |- _ = _ => reflexivity
         end.

Example end_to_end_grant :
  simulate_access (Sample.simulator [Sample.P1] ["u1"] Sample.usa)
    Sample.noon "u1"
  = ([Logged INFO (PolicyGranted (JStr "P1") "u1")], Ok true).
Proof. reflexivity. Qed.

Example end_to_end_deny :
  simulate_access (Sample.simulator [Sample.P1] ["u1"] Sample.canada)
    Sample.noon "u1"
  = ([Logged INFO (AccessDenied "u1")], Ok false).
Proof. reflexivity. Qed.

Example parse_0800 : Strptime.parse "08:00" = Ok (mkTime 8 0 0 0).
Proof. reflexivity. Qed.
Example parse_2359 : Strptime.parse "23:59" = Ok (mkTime 23 59 0 0).
Proof. reflexivity. Qed.
Example parse_8_5 : Strptime.parse "8:5" = Ok (mkTime 8 5 0 0).
Proof. reflexivity. Qed.
Example parse_24 : Strptime.parse "24:00" = Raise ValueError.
Proof. reflexivity. Qed.
Example parse_60 : Strptime.parse "12:60" = Raise ValueError.
Proof. reflexivity. Qed.
Example parse_8am : Strptime.parse "8am" = Raise ValueError.
Proof. reflexivity. Qed.
Example parse_sec : Strptime.parse "08:00:00" = Raise ValueError.
Proof. reflexivity. Qed.

(** ** The monads *)

Lemma mbind_lift_ok {A B : Type} (a : A) (k : A -> M B) :
  mbind (lift (Ok a)) k = k a.
Proof. unfold mbind, lift. destruct (k a); reflexivity. Qed.

Lemma mbind_logging {B : Type} (lvl : level) (m : message) (k : unit -> M B) :
  mbind (logging lvl m) k = (Logged lvl m :: output (k tt), outcome (k tt)).
Proof. unfold mbind, logging, output, outcome. destruct (k tt); reflexivity. Qed.

Lemma M_eta {A : Type} (m : M A) : m = (output m, outcome m).
Proof. destruct m; reflexivity. Qed.

(** ** One turn of the loop *)

Section Turn.

Variable user_id : string.
Variable context_data : json.
Variable current_time : time.

Let body := policy_body user_id context_data current_time.
Let loop := scan user_id context_data current_time.

Lemma qualifies_body (p : json) (name : json) :
  qualifies user_id context_data current_time p ->
  policy_name p = Ok name ->
  body p = Ok (Granting name).
Proof.
  intros (He & Ha & Hc & Hg) Hn. unfold body, policy_body.
  rewrite He; simpl. rewrite Ha; simpl. rewrite Hc; simpl.
  rewrite Hg; simpl. rewrite Hn; reflexivity.
Qed.

Lemma matching_body (p : json) (name : json) :
  matches_without_granting user_id context_data current_time p ->
  policy_name p = Ok name ->
  body p = Ok (NotGranting name).
Proof.
  intros (He & Ha & Hc & Hg) Hn. unfold body, policy_body.
  rewrite He; simpl. rewrite Ha; simpl. rewrite Hc; simpl.
  rewrite Hg; simpl. rewrite Hn; reflexivity.
Qed.

Lemma body_granting (p : json) (name : json) :
  body p = Ok (Granting name) ->
  qualifies user_id context_data current_time p /\ policy_name p = Ok name.
Proof.
  unfold body, policy_body, qualifies.
  destruct (policy_enabled p) as [[|]|]; simpl; try discriminate.
  destruct (policy_applies user_id p) as [[|]|]; simpl; try discriminate.
  destruct (conditions_met context_data current_time p) as [[|]|];
    simpl; try discriminate.
  destruct (grants_access p) as [[|]|]; simpl; try discriminate;
    destruct (policy_name p); simpl; try discriminate.
  intros H; injection H as <-. auto.
Qed.

Lemma body_not_granting (p : json) (name : json) :
  body p = Ok (NotGranting name) ->
  matches_without_granting user_id context_data current_time p /\
  policy_name p = Ok name.
Proof.
  unfold body, policy_body, matches_without_granting.
  destruct (policy_enabled p) as [[|]|]; simpl; try discriminate.
  destruct (policy_applies user_id p) as [[|]|]; simpl; try discriminate.
  destruct (conditions_met context_data current_time p) as [[|]|];
    simpl; try discriminate.
  destruct (grants_access p) as [[|]|]; simpl; try discriminate;
    destruct (policy_name p); simpl; try discriminate.
  intros H; injection H as <-. auto.
Qed.

(** A policy that qualifies has a name to log: it is a dict. *)
Lemma qualifies_named (p : json) :
  qualifies user_id context_data current_time p ->
  exists name, policy_name p = Ok name.
Proof.
  intros (He & _). unfold policy_enabled in He.
  destruct p; simpl in He; try discriminate.
  unfold policy_name; simpl. destruct (Py.lookup "name" fields); eauto.
Qed.

Lemma passed_body (p : json) :
  passed user_id context_data current_time p ->
  body p = Ok Next \/ exists name, body p = Ok (NotGranting name).
Proof.
  intros [[v Hv] Hq]. fold body in Hv. destruct v as [|name|name]; eauto.
  apply body_granting in Hv. tauto.
Qed.

End Turn.

(** ** The loop *)

Section Scan.

Variable user_id : string.
Variable context_data : json.
Variable current_time : time.

Let body := policy_body user_id context_data current_time.
Let loop := scan user_id context_data current_time.

Lemma scan_cons (p : json) (rest : list json) :
  loop (p :: rest) =
  match body p with
  | Raise e => ([], Raise e)
  | Ok Next => loop rest
  | Ok (NotGranting name) =>
      (Logged INFO (PolicyNotGranting name user_id) :: output (loop rest),
       outcome (loop rest))
  | Ok (Granting name) => ([Logged INFO (PolicyGranted name user_id)], Ok true)
  end.
Proof.
  unfold loop, body; cbn [scan].
  destruct (policy_body user_id context_data current_time p) as [[|name|name]|e].
  - rewrite mbind_lift_ok. reflexivity.
  - rewrite mbind_lift_ok, mbind_logging. reflexivity.
  - rewrite mbind_lift_ok, mbind_logging. reflexivity.
  - reflexivity.
Qed.

(** Policies the loop goes past only add their entries. *)
Lemma scan_passed_app (pre rest : list json) :
  Forall (passed user_id context_data current_time) pre ->
  loop (pre ++ rest) =
  (output (loop pre) ++ output (loop rest), outcome (loop rest)) /\
  outcome (loop pre) = Ok false.
Proof.
  induction 1 as [|p pre Hp _ [IH1 IH2]].
  - simpl. split; [apply M_eta | reflexivity].
  - rewrite <- app_comm_cons, !scan_cons.
    destruct (passed_body _ _ _ _ Hp) as [Hb | [name Hb]];
      fold body in Hb; rewrite Hb.
    + auto.
    + rewrite IH1; simpl. auto.
Qed.

Lemma scan_passed (ps : list json) :
  Forall (passed user_id context_data current_time) ps ->
  outcome (loop ps) = Ok false /\ authorizing (output (loop ps)) = None.
Proof.
  induction 1 as [|p ps Hp _ [IH1 IH2]].
  - split; reflexivity.
  - rewrite scan_cons.
    destruct (passed_body _ _ _ _ Hp) as [Hb | [name Hb]];
      fold body in Hb; rewrite Hb; simpl; auto.
Qed.

End Scan.

(** ** Getting to the loop *)

Lemma data_loaded_guard (self : PolicySimulator) :
  negb (Py.truthy (policies self)) || negb (Py.truthy (users self))
  || negb (Py.truthy (context self)) = negb (data_loaded self).
Proof.
  unfold data_loaded.
  destruct (Py.truthy (policies self)), (Py.truthy (users self)),
    (Py.truthy (context self)); reflexivity.
Qed.

(** Once at the loop, the call returns what the loop computed, after the
    "access denied" entry when that is [False]. *)
Lemma simulate_access_loop (self : PolicySimulator) (clock : datetime)
    (user_id : string) (context_data : json) (ps : list json) :
  reaches_loop self user_id context_data ps ->
  simulate_access self clock user_id =
  match scan user_id context_data (time_of clock) ps with
  | (out, Ok false) => (out ++ [Logged INFO (AccessDenied user_id)], Ok false)
  | (out, Ok true) => (out ++ [], Ok true)
  | (out, Raise e) => (out, Raise e)
  end.
Proof.
  intros (Hl & (user & Hu & Ht) & Hc & Hp).
  unfold simulate_access.
  rewrite data_loaded_guard, Hl; simpl negb; cbv iota.
  rewrite Hu, mbind_lift_ok, Ht; simpl negb; cbv iota.
  rewrite Hc, mbind_lift_ok, Hp, mbind_lift_ok.
  destruct (scan user_id context_data (time_of clock) ps) as [out [[|]|e]];
    reflexivity.
Qed.

Lemma authorizing_app_none (out out' : list event) :
  authorizing out = None ->
  authorizing (out ++ out') = authorizing out'.
Proof.
  induction out as [|[m|[| |] [| | | | | |name u|name u|u]] out IH];
    simpl; intros H; auto; discriminate.
Qed.

Lemma inert_passed (user_id : string) (context_data : json)
    (current_time : time) (p : json) :
  inert user_id p ->
  policy_body user_id context_data current_time p = Ok Next.
Proof.
  unfold policy_body. intros [He | [He Ha]]; rewrite He; simpl.
  - reflexivity.
  - rewrite Ha. reflexivity.
Qed.

(** ** Precedence among the policies *)

(** C1, as the code has it: when the call gets to the loop (the three
    documents are non-empty and the subject is in the directory) and every
    policy in front of the first qualifying one is examined without an
    exception, access is granted, the entry written names that first
    qualifying policy, and nothing of the result depends on the policies
    after it: they are not examined. *)
Theorem first_grant_wins (self : PolicySimulator) (clock : datetime)
    (user_id : string) (context_data : json) (pre post : list json)
    (p name : json) :
  reaches_loop self user_id context_data (pre ++ p :: post) ->
  Forall (passed user_id context_data (time_of clock)) pre ->
  qualifies user_id context_data (time_of clock) p ->
  policy_name p = Ok name ->
  simulate_access self clock user_id =
    (output (scan user_id context_data (time_of clock) pre)
       ++ [Logged INFO (PolicyGranted name user_id)], Ok true) /\
  authorizing (output (simulate_access self clock user_id)) = Some name /\
  forall (self' : PolicySimulator) (post' : list json),
    reaches_loop self' user_id context_data (pre ++ p :: post') ->
    simulate_access self' clock user_id = simulate_access self clock user_id.
Proof.
  intros Hr Hpre Hq Hn.
  assert (Hscan : forall post0,
    scan user_id context_data (time_of clock) (pre ++ p :: post0) =
    (output (scan user_id context_data (time_of clock) pre)
       ++ [Logged INFO (PolicyGranted name user_id)], Ok true)).
  { intros post0.
    destruct (scan_passed_app user_id context_data (time_of clock) pre
                (p :: post0) Hpre) as [-> _].
    rewrite scan_cons, (qualifies_body _ _ _ p name Hq Hn). reflexivity. }
  assert (Hsim : forall self0 post0,
    reaches_loop self0 user_id context_data (pre ++ p :: post0) ->
    simulate_access self0 clock user_id =
    (output (scan user_id context_data (time_of clock) pre)
       ++ [Logged INFO (PolicyGranted name user_id)], Ok true)).
  { intros self0 post0 H0.
    rewrite (simulate_access_loop _ clock _ _ _ H0), Hscan, app_nil_r.
    reflexivity. }
  split; [|split].
  - apply (Hsim self post Hr).
  - rewrite (Hsim self post Hr). unfold output at 1; simpl fst.
    rewrite authorizing_app_none; [reflexivity|].
    apply (scan_passed user_id context_data (time_of clock) pre Hpre).
  - intros self' post' H'. rewrite (Hsim self' post' H'), (Hsim self post Hr).
    reflexivity.
Qed.

(** C2, as the code has it: when the call gets to the loop, a policy that
    matches without granting is logged as applied and the loop goes on; the
    first qualifying policy after it grants, provided the policies in front
    of it are examined without an exception. *)
Theorem later_grant_applies (self : PolicySimulator) (clock : datetime)
    (user_id : string) (context_data : json) (pre mid post : list json)
    (p1 p2 name1 name2 : json) :
  reaches_loop self user_id context_data (pre ++ p1 :: mid ++ p2 :: post) ->
  Forall (passed user_id context_data (time_of clock)) pre ->
  matches_without_granting user_id context_data (time_of clock) p1 ->
  policy_name p1 = Ok name1 ->
  Forall (passed user_id context_data (time_of clock)) mid ->
  qualifies user_id context_data (time_of clock) p2 ->
  policy_name p2 = Ok name2 ->
  simulate_access self clock user_id =
    (output (scan user_id context_data (time_of clock) pre)
       ++ Logged INFO (PolicyNotGranting name1 user_id)
       :: output (scan user_id context_data (time_of clock) mid)
       ++ [Logged INFO (PolicyGranted name2 user_id)], Ok true) /\
  authorizing (output (simulate_access self clock user_id)) = Some name2.
Proof.
  intros Hr Hpre Hm Hn1 Hmid Hq Hn2.
  assert (Hsim : simulate_access self clock user_id =
    (output (scan user_id context_data (time_of clock) pre)
       ++ Logged INFO (PolicyNotGranting name1 user_id)
       :: output (scan user_id context_data (time_of clock) mid)
       ++ [Logged INFO (PolicyGranted name2 user_id)], Ok true)).
  { rewrite (simulate_access_loop _ clock _ _ _ Hr).
    destruct (scan_passed_app user_id context_data (time_of clock) pre
                (p1 :: mid ++ p2 :: post) Hpre) as [-> _].
    rewrite scan_cons, (matching_body _ _ _ p1 name1 Hm Hn1).
    destruct (scan_passed_app user_id context_data (time_of clock) mid
                (p2 :: post) Hmid) as [-> _].
    rewrite scan_cons, (qualifies_body _ _ _ p2 name2 Hq Hn2).
    unfold output, outcome; simpl. rewrite app_nil_r. reflexivity. }
  split; [exact Hsim|].
  rewrite Hsim. unfold output at 1; simpl fst.
  rewrite authorizing_app_none
    by apply (scan_passed user_id context_data (time_of clock) pre Hpre).
  simpl. rewrite authorizing_app_none; [reflexivity|].
  apply (scan_passed user_id context_data (time_of clock) mid Hmid).
Qed.

Lemma inert_is_passed (user_id : string) (context_data : json)
    (current_time : time) (p : json) :
  inert user_id p -> passed user_id context_data current_time p.
Proof.
  intros Hp. split.
  - exists Next. apply inert_passed, Hp.
  - intros (He & Ha & _). destruct Hp as [H | [_ H]]; congruence.
Qed.

(** Disabled and untargeted policies leave no entry at all. *)
Lemma all_inert_denies (self : PolicySimulator) (clock : datetime)
    (user_id : string) (context_data : json) (ps : list json) :
  reaches_loop self user_id context_data ps ->
  Forall (inert user_id) ps ->
  simulate_access self clock user_id =
    ([Logged INFO (AccessDenied user_id)], Ok false).
Proof.
  intros Hr Hps. rewrite (simulate_access_loop _ clock _ _ _ Hr).
  assert (Hscan : scan user_id context_data (time_of clock) ps
                  = ([], Ok false)).
  { clear Hr. induction Hps as [|p ps Hp _ IH]; [reflexivity|].
    rewrite scan_cons, (inert_passed _ context_data (time_of clock) p Hp).
    exact IH. }
  rewrite Hscan. reflexivity.
Qed.

(** C3, as the code has it: when the call gets to the loop and every policy
    is examined without an exception and none qualifies (so, among others,
    when every policy is disabled or does not target the subject), access is
    denied and no policy is named as granting. *)
Theorem no_grant_denies (self : PolicySimulator) (clock : datetime)
    (user_id : string) (context_data : json) (ps : list json) :
  reaches_loop self user_id context_data ps ->
  Forall (passed user_id context_data (time_of clock)) ps ->
  simulate_access self clock user_id =
    (output (scan user_id context_data (time_of clock) ps)
       ++ [Logged INFO (AccessDenied user_id)], Ok false) /\
  authorizing (output (simulate_access self clock user_id)) = None.
Proof.
  intros Hr Hps.
  destruct (scan_passed user_id context_data (time_of clock) ps Hps)
    as [Ho Ha].
  assert (Hsim : simulate_access self clock user_id =
    (output (scan user_id context_data (time_of clock) ps)
       ++ [Logged INFO (AccessDenied user_id)], Ok false)).
  { rewrite (simulate_access_loop _ clock _ _ _ Hr).
    destruct (scan user_id context_data (time_of clock) ps) as [out r].
    unfold outcome in Ho; simpl in Ho; subst r. reflexivity. }
  split; [exact Hsim|].
  rewrite Hsim. unfold output at 1; simpl fst.
  rewrite authorizing_app_none by exact Ha. reflexivity.
Qed.

Lemma first_grant_wins_witness :
  let self := Sample.simulator
                [Sample.Audit; Sample.Off; Sample.P2; Sample.Broken]
                ["u1"] Sample.usa in
  simulate_access self Sample.noon "u1" =
    ([Logged INFO (PolicyNotGranting (JStr "Audit") "u1");
      Logged INFO (PolicyGranted (JStr "P2") "u1")], Ok true) /\
  authorizing (output (simulate_access self Sample.noon "u1"))
    = Some (JStr "P2") /\
  forall (self' : PolicySimulator) (post' : list json),
    reaches_loop self' "u1" (JObj Sample.usa)
      ([Sample.Audit; Sample.Off] ++ Sample.P2 :: post') ->
    simulate_access self' Sample.noon "u1"
    = simulate_access self Sample.noon "u1".
Proof.
  intros self.
  apply (first_grant_wins self Sample.noon "u1" (JObj Sample.usa)
           [Sample.Audit; Sample.Off] [Sample.Broken] Sample.P2 (JStr "P2"));
    concrete.
Defined.

(** C1 as stated fails: two policies that both qualify, and the result is
    not a grant by the first of them, when the subject is missing from the
    directory, when a document is empty, or when a policy in front of them
    raises. *)
Lemma first_grant_counterexample :
  (qualifies "u1" (JObj Sample.usa) (time_of Sample.noon) Sample.P2 /\
   qualifies "u1" (JObj Sample.usa) (time_of Sample.noon) Sample.P3 /\
   simulate_access
     (Sample.simulator [Sample.P2; Sample.P3] ["u2"] Sample.usa)
     Sample.noon "u1"
   = ([Printed (UserNotFound "u1"); Logged WARNING (UserNotFound "u1")],
      Ok false)) /\
  (qualifies "u1" (JObj []) (time_of Sample.noon) Sample.P2 /\
   qualifies "u1" (JObj []) (time_of Sample.noon) Sample.P3 /\
   simulate_access
     (Sample.without_context [Sample.P2; Sample.P3] ["u1"])
     Sample.noon "u1"
   = ([Printed DataNotLoaded; Logged ERROR DataNotLoaded], Ok false)) /\
  (qualifies "u1" (JObj Sample.usa) (time_of Sample.noon) Sample.P2 /\
   qualifies "u1" (JObj Sample.usa) (time_of Sample.noon) Sample.P3 /\
   simulate_access
     (Sample.simulator [Sample.Broken; Sample.P2; Sample.P3] ["u1"]
        Sample.usa)
     Sample.noon "u1"
   = ([], Raise ValueError)).
Proof. concrete. Qed.

Lemma later_grant_applies_witness :
  let self := Sample.simulator
                [Sample.Off; Sample.Audit; Sample.Other; Sample.P2;
                 Sample.Broken]
                ["u1"] Sample.usa in
  simulate_access self Sample.noon "u1" =
    ([Logged INFO (PolicyNotGranting (JStr "Audit") "u1");
      Logged INFO (PolicyGranted (JStr "P2") "u1")], Ok true) /\
  authorizing (output (simulate_access self Sample.noon "u1"))
    = Some (JStr "P2").
Proof.
  intros self.
  apply (later_grant_applies self Sample.noon "u1" (JObj Sample.usa)
           [Sample.Off] [Sample.Other] [Sample.Broken]
           Sample.Audit Sample.P2 (JStr "Audit") (JStr "P2"));
    concrete.
Defined.

(** C2 as stated fails: a matching policy that does not grant, a later one
    that qualifies, and no grant by the later one, when the subject is
    missing from the directory, when a document is empty, or when a policy
    between the two raises. *)
Lemma later_grant_counterexample :
  (matches_without_granting "u1" (JObj Sample.usa) (time_of Sample.noon)
     Sample.Audit /\
   qualifies "u1" (JObj Sample.usa) (time_of Sample.noon) Sample.P2 /\
   simulate_access
     (Sample.simulator [Sample.Audit; Sample.P2] ["u2"] Sample.usa)
     Sample.noon "u1"
   = ([Printed (UserNotFound "u1"); Logged WARNING (UserNotFound "u1")],
      Ok false)) /\
  (matches_without_granting "u1" (JObj []) (time_of Sample.noon)
     Sample.Audit /\
   qualifies "u1" (JObj []) (time_of Sample.noon) Sample.P2 /\
   simulate_access
     (Sample.without_context [Sample.Audit; Sample.P2] ["u1"])
     Sample.noon "u1"
   = ([Printed DataNotLoaded; Logged ERROR DataNotLoaded], Ok false)) /\
  (matches_without_granting "u1" (JObj Sample.usa) (time_of Sample.noon)
     Sample.Audit /\
   qualifies "u1" (JObj Sample.usa) (time_of Sample.noon) Sample.P2 /\
   simulate_access
     (Sample.simulator [Sample.Audit; Sample.Broken; Sample.P2] ["u1"]
        Sample.usa)
     Sample.noon "u1"
   = ([Logged INFO (PolicyNotGranting (JStr "Audit") "u1")],
      Raise ValueError)).
Proof. concrete. Qed.

Lemma no_grant_denies_witness :
  let self := Sample.simulator
                [Sample.Off; Sample.Audit; Sample.Other; Sample.P1]
                ["u1"] Sample.canada in
  simulate_access self Sample.noon "u1" =
    ([Logged INFO (PolicyNotGranting (JStr "Audit") "u1");
      Logged INFO (AccessDenied "u1")], Ok false) /\
  authorizing (output (simulate_access self Sample.noon "u1")) = None.
Proof.
  intros self.
  apply (no_grant_denies self Sample.noon "u1" (JObj Sample.canada)
           [Sample.Off; Sample.Audit; Sample.Other; Sample.P1]);
    concrete.
Defined.

(** C3 as stated fails: no policy qualifies, and the call raises instead of
    denying, when an enabled policy that targets the subject has a time
    text that does not parse. *)
Lemma no_grant_counterexample :
  ~ qualifies "u1" (JObj Sample.usa) (time_of Sample.noon) Sample.Broken /\
  simulate_access (Sample.simulator [Sample.Broken] ["u1"] Sample.usa)
    Sample.noon "u1"
  = ([], Raise ValueError).
Proof. concrete. Qed.

(** ** The guards *)

Lemma absent_subject_not_found (users : json) (user_id : string) :
  absent_subject users user_id -> find_user users user_id = Ok JNull.
Proof.
  intros (l & Hl & Hall). unfold find_user. rewrite Hl; simpl. clear Hl.
  induction Hall as [|u l (id & Hid & Hne) _ IH]; simpl.
  - reflexivity.
  - rewrite Hid; simpl. rewrite Hne. exact IH.
Qed.

Lemma listed_subject_known (users : json) (user_id : string) :
  listed_subject users user_id -> known_subject users user_id.
Proof.
  intros (pre & fields & post & Hl & Hpre & Hid).
  exists (JObj fields). split.
  - unfold find_user. rewrite Hl; simpl. clear Hl.
    induction Hpre as [|u pre (id & Hu & Hne) _ IH]; simpl.
    + rewrite Hid; simpl. rewrite String.eqb_refl. reflexivity.
    + rewrite Hu; simpl. rewrite Hne. exact IH.
  - destruct fields; [discriminate | reflexivity].
Qed.

Lemma not_loaded (self : PolicySimulator) (clock : datetime)
    (user_id : string) :
  data_loaded self = false ->
  simulate_access self clock user_id =
    ([Printed DataNotLoaded; Logged ERROR DataNotLoaded], Ok false).
Proof.
  intros Hl. unfold simulate_access.
  rewrite data_loaded_guard, Hl. reflexivity.
Qed.

(** C4: a subject that the directory does not list is denied, by a normal
    return and not by an exception, whatever the policies are; with the
    three documents non-empty the output is the "user not found" message,
    printed and logged as a warning. *)
Theorem unknown_subject_denied (self : PolicySimulator) (clock : datetime)
    (user_id : string) :
  absent_subject (users self) user_id ->
  outcome (simulate_access self clock user_id) = Ok false /\
  (data_loaded self = true ->
   simulate_access self clock user_id =
     ([Printed (UserNotFound user_id); Logged WARNING (UserNotFound user_id)],
      Ok false)).
Proof.
  intros Habs.
  assert (Hfound : data_loaded self = true ->
    simulate_access self clock user_id =
      ([Printed (UserNotFound user_id);
        Logged WARNING (UserNotFound user_id)], Ok false)).
  { intros Hl. unfold simulate_access.
    rewrite data_loaded_guard, Hl; simpl negb; cbv iota.
    rewrite (absent_subject_not_found _ _ Habs), mbind_lift_ok.
    reflexivity. }
  split; [|exact Hfound].
  destruct (data_loaded self) eqn:Hl.
  - rewrite Hfound; reflexivity.
  - rewrite not_loaded by exact Hl. reflexivity.
Qed.

Lemma unknown_subject_denied_witness :
  let self := Sample.simulator [Sample.P2; Sample.Broken] ["u2"; "u3"]
                Sample.usa in
  outcome (simulate_access self Sample.noon "user1") = Ok false /\
  simulate_access self Sample.noon "user1" =
    ([Printed (UserNotFound "user1");
      Logged WARNING (UserNotFound "user1")], Ok false).
Proof.
  intros self.
  assert (Habs : absent_subject (users self) "user1") by concrete.
  destruct (unknown_subject_denied self Sample.noon "user1" Habs)
    as [Hdeny Hwhy].
  split; [exact Hdeny | apply Hwhy; reflexivity].
Defined.

Lemma mbind_ok {A B : Type} (m : M A) (out : list event) (a : A)
    (k : A -> M B) :
  m = (out, Ok a) ->
  mbind m k = (out ++ output (k a), outcome (k a)).
Proof.
  intros ->. unfold mbind, output, outcome. destruct (k a); reflexivity.
Qed.

Lemma load_data_returns (fs : string -> file) (path : string) :
  _load_data fs path = (output (_load_data fs path), Ok (loaded fs path)).
Proof. unfold _load_data, loaded. destruct (fs path); reflexivity. Qed.

Lemma init_returns (fs : string -> file) (pf uf cf : string) :
  __init__ fs pf uf cf =
  (output (__init__ fs pf uf cf),
   Ok (mkPolicySimulator pf uf cf (loaded fs pf) (loaded fs uf)
         (loaded fs cf))).
Proof.
  unfold __init__.
  rewrite (mbind_ok _ _ _ _ (load_data_returns fs pf)).
  rewrite (mbind_ok _ _ _ _ (load_data_returns fs uf)).
  rewrite (mbind_ok _ _ _ _ (load_data_returns fs cf)).
  reflexivity.
Qed.

Lemma failed_not_truthy (fs : string -> file) (path : string) :
  failed (fs path) = true -> Py.truthy (loaded fs path) = false.
Proof. unfold failed, loaded. destruct (fs path); [discriminate | auto ..]. Qed.

(** C5, as the code has it: when one of the three files failed to load, the
    call does not raise; it prints and logs the "data is not loaded" error
    and returns [False], the value it also returns for a deny by policy. *)
Theorem data_unavailable_returns_false (fs : string -> file)
    (pf uf cf : string) (clock : datetime) (user_id : string) :
  failed (fs pf) = true \/ failed (fs uf) = true \/ failed (fs cf) = true ->
  run fs pf uf cf clock user_id =
    (output (__init__ fs pf uf cf)
       ++ [Printed DataNotLoaded; Logged ERROR DataNotLoaded], Ok false).
Proof.
  intros Hfail. unfold run.
  rewrite (mbind_ok _ _ _ _ (init_returns fs pf uf cf)).
  rewrite not_loaded; [reflexivity|].
  unfold data_loaded; simpl.
  destruct Hfail as [H | [H | H]];
    rewrite (failed_not_truthy _ _ H);
    repeat rewrite andb_false_r; reflexivity.
Qed.

Lemma data_unavailable_returns_false_witness :
  run (Sample.disk Malformed (Json (Sample.users_doc ["u1"]))
         (Json (Sample.context_doc Sample.usa)))
    "policies.json" "users.json" "context.json" Sample.noon "u1"
  = ([Logged ERROR (InvalidJson "policies.json");
      Printed (InvalidJson "policies.json");
      Logged INFO (LoadedFrom "users.json");
      Logged INFO (LoadedFrom "context.json");
      Printed DataNotLoaded; Logged ERROR DataNotLoaded], Ok false).
Proof.
  apply (data_unavailable_returns_false
           (Sample.disk Malformed (Json (Sample.users_doc ["u1"]))
              (Json (Sample.context_doc Sample.usa)))
           "policies.json" "users.json" "context.json" Sample.noon "u1").
  left; reflexivity.
Defined.

(** C5 as stated fails: with the policy file missing the call returns what
    it returns when the loaded policies deny, [False] in both cases, and
    raises in neither. *)
Lemma data_unavailable_counterexample :
  outcome (run (Sample.disk Missing (Json (Sample.users_doc ["u1"]))
                  (Json (Sample.context_doc Sample.usa)))
             "policies.json" "users.json" "context.json" Sample.noon "u1")
  = Ok false /\
  outcome (run (Sample.disk (Json (Sample.policies_doc [Sample.Audit]))
                  (Json (Sample.users_doc ["u1"]))
                  (Json (Sample.context_doc Sample.usa)))
             "policies.json" "users.json" "context.json" Sample.noon "u1")
  = Ok false.
Proof. split; reflexivity. Qed.

(** ** Malformed times *)

Lemma parse_raises (s : string) (e : exn) :
  Strptime.parse s = Raise e -> e = ValueError.
Proof.
  unfold Strptime.parse.
  destruct (Strptime.regex_match (list_ascii_of_string s))
    as [[[h m] [|c rest]]|]; intros H; congruence.
Qed.

Lemma malformed_time_condition (current_time : time) (conditions : json)
    (start_value : json) :
  malformed_time conditions start_value ->
  time_condition current_time conditions = Raise (time_error start_value).
Proof.
  intros (tr & ev & Htr & Ht & Hs & He & Hbad).
  unfold time_condition. rewrite Htr; simpl. rewrite Ht, Hs; simpl.
  destruct start_value as [| | |s| |];
    try reflexivity.
  simpl. destruct (Strptime.parse s) as [ts|x] eqn:Ps; simpl.
  - rewrite He; simpl.
    destruct Hbad as [(s' & E & H) | (e & -> & H)].
    + injection E as <-. congruence.
    + simpl. rewrite H. reflexivity.
  - rewrite (parse_raises s x Ps). reflexivity.
Qed.

Lemma malformed_body (user_id : string) (context_data : json)
    (current_time : time) (p : json) (start_value : json) :
  policy_enabled p = Ok true ->
  policy_applies user_id p = Ok true ->
  has_malformed_time p start_value ->
  policy_body user_id context_data current_time p
  = Raise (time_error start_value).
Proof.
  intros He Ha (conditions & Hc & Hbad). unfold policy_body.
  rewrite He; simpl. rewrite Ha; simpl.
  unfold conditions_met. rewrite Hc; simpl.
  rewrite (malformed_time_condition current_time conditions _ Hbad).
  reflexivity.
Qed.

Lemma ascii_digit_digit (c : ascii) (a : nat) (rest : list ascii) :
  Strptime.ascii_digit c = Some a ->
  Strptime.digit (c :: rest) = Some (a, rest).
Proof.
  destruct c as [b0 b1 b2 b3 b4 b5 b6 b7].
  destruct b0, b1, b2, b3, b4, b5, b6, b7;
    intros H; vm_compute in H; try discriminate;
    injection H as <-; vm_compute; reflexivity.
Qed.

(** Every text of the form HH:MM is accepted; the parser also accepts
    texts with a single digit for the hour or the minute, and digits of
    other scripts where the pattern has a plain digit. *)
Lemma valid_HHMM_parses (s : string) :
  valid_HHMM s = true ->
  exists h m, Strptime.parse s = Ok (mkTime h m 0 0) /\ h <= 23 /\ m <= 59.
Proof.
  unfold valid_HHMM, Strptime.parse.
  destruct (list_ascii_of_string s)
    as [|h1 [|h2 [|c [|m1 [|m2 [|? ?]]]]]]; try discriminate.
  destruct (Strptime.ascii_digit h1) as [a|] eqn:Da; try discriminate.
  destruct (Strptime.ascii_digit h2) as [b|] eqn:Db; try discriminate.
  destruct (Strptime.ascii_digit m1) as [x|] eqn:Dx; try discriminate.
  destruct (Strptime.ascii_digit m2) as [y|] eqn:Dy; try discriminate.
  intros H. apply andb_prop in H. destruct H as [H Hm].
  apply andb_prop in H. destruct H as [Hh Hc].
  apply Nat.leb_le in Hh, Hm.
  exists (10 * a + b), (10 * x + y).
  assert (Hmin : Strptime.first_match (Strptime.minute_alts [m1; m2])
                   (fun m s3 => Some (10 * a + b, m, s3))
                 = Some (10 * a + b, 10 * x + y, [])).
  { unfold Strptime.minute_alts, Strptime.class_digit. rewrite Dx.
    replace (x <=? 5) with true by (symmetry; apply Nat.leb_le; lia).
    rewrite (ascii_digit_digit m2 y [] Dy). reflexivity. }
  assert (Hk : (fun h s1 =>
                  match Strptime.colon s1 with
                  | Some s2 =>
                      Strptime.first_match (Strptime.minute_alts s2)
                        (fun m s3 => Some (h, m, s3))
                  | None => None
                  end) (10 * a + b) [c; m1; m2]
               = Some (10 * a + b, 10 * x + y, [])).
  { cbv beta. unfold Strptime.colon. rewrite Hc. exact Hmin. }
  unfold Strptime.regex_match, Strptime.hour_alts, Strptime.class_class,
    Strptime.class_digit.
  rewrite Da, Db.
  destruct ((2 =? a) && (b <=? 3)) eqn:H1.
  - cbn [Strptime.first_match]. rewrite Hk. auto.
  - destruct (a <=? 1) eqn:H2.
    + rewrite (ascii_digit_digit h2 b [c; m1; m2] Db).
      cbn [Strptime.first_match]. rewrite Hk. auto.
    + exfalso. apply Nat.leb_gt in H2.
      apply andb_false_iff in H1. destruct H1 as [H1 | H1].
      * apply Nat.eqb_neq in H1. lia.
      * apply Nat.leb_gt in H1. lia.
Qed.

(** The parser on digits of other scripts: an Arabic-Indic 8 and 5 around
    the colon, and a fullwidth digit after an ASCII one, are read; a
    fullwidth 2 in front of 3 is not an hour. *)
Example parse_arabic_indic :
  Strptime.parse (Fixture.text [217; 168; 58; 217; 165])
  = Ok (mkTime 8 5 0 0).
Proof. vm_compute. reflexivity. Qed.

Example parse_fullwidth :
  Strptime.parse (Fixture.text [49; 239; 188; 146; 58; 48; 239; 188; 149])
  = Ok (mkTime 12 5 0 0).
Proof. vm_compute. reflexivity. Qed.

Example parse_fullwidth_hour :
  Strptime.parse (Fixture.text [239; 188; 146; 51; 58; 48; 48])
  = Raise ValueError.
Proof. vm_compute. reflexivity. Qed.

Example parse_unconverted :
  Strptime.parse (Fixture.text [48; 217; 165; 58; 217; 165; 217; 165])
  = Raise ValueError.
Proof. vm_compute. reflexivity. Qed.

(** C6, as the code has it: when the loop gets to an enabled policy that
    targets the subject and whose time entry has a start or end text that
    the parser rejects, the call raises, after the entries of the policies
    in front of it: [ValueError], or [TypeError] when the start value is
    not a text at all; nothing is defaulted and the policy is not
    skipped. *)
Theorem malformed_time_raises (self : PolicySimulator) (clock : datetime)
    (user_id : string) (context_data : json) (pre post : list json)
    (p : json) (start_value : json) :
  reaches_loop self user_id context_data (pre ++ p :: post) ->
  Forall (passed user_id context_data (time_of clock)) pre ->
  policy_enabled p = Ok true ->
  policy_applies user_id p = Ok true ->
  has_malformed_time p start_value ->
  simulate_access self clock user_id =
    (output (scan user_id context_data (time_of clock) pre),
     Raise (time_error start_value)).
Proof.
  intros Hr Hpre He Ha Hbad.
  rewrite (simulate_access_loop _ clock _ _ _ Hr).
  destruct (scan_passed_app user_id context_data (time_of clock) pre
              (p :: post) Hpre) as [-> _].
  rewrite scan_cons, (malformed_body _ _ _ p _ He Ha Hbad).
  unfold output at 2, outcome; simpl. rewrite app_nil_r. reflexivity.
Qed.

Lemma malformed_time_raises_witness :
  simulate_access
    (Sample.simulator [Sample.Audit; Sample.Broken; Sample.P2] ["u1"]
       Sample.usa)
    Sample.noon "u1"
  = ([Logged INFO (PolicyNotGranting (JStr "Audit") "u1")],
     Raise ValueError) /\
  simulate_access
    (Sample.simulator [Sample.Audit; Fixture.Numeric; Sample.P2] ["u1"]
       Sample.usa)
    Sample.noon "u1"
  = ([Logged INFO (PolicyNotGranting (JStr "Audit") "u1")],
     Raise TypeError).
Proof.
  split.
  - apply (malformed_time_raises
             (Sample.simulator [Sample.Audit; Sample.Broken; Sample.P2]
                ["u1"] Sample.usa)
             Sample.noon "u1" (JObj Sample.usa)
             [Sample.Audit] [Sample.P2] Sample.Broken (JStr "8am"));
      [concrete | concrete | reflexivity | reflexivity | concrete_time].
  - apply (malformed_time_raises
             (Sample.simulator [Sample.Audit; Fixture.Numeric; Sample.P2]
                ["u1"] Sample.usa)
             Sample.noon "u1" (JObj Sample.usa)
             [Sample.Audit] [Sample.P2] Fixture.Numeric (JInt 800));
      [concrete | concrete | reflexivity | reflexivity | concrete_time].
Defined.

(** C6 as stated fails: an enabled policy that targets the subject has a
    start text that does not parse, and no error comes out, when a policy in
    front of it grants or when the subject is missing from the directory;
    and the text "8:5", which is not of the form HH:MM, is read as 08:05. *)
Lemma malformed_time_counterexample :
  (policy_enabled Sample.Broken = Ok true /\
   policy_applies "u1" Sample.Broken = Ok true /\
   has_malformed_time Sample.Broken (JStr "8am")) /\
  simulate_access
    (Sample.simulator [Sample.P2; Sample.Broken] ["u1"] Sample.usa)
    Sample.noon "u1"
  = ([Logged INFO (PolicyGranted (JStr "P2") "u1")], Ok true) /\
  simulate_access
    (Sample.simulator [Sample.Broken] ["u2"] Sample.usa)
    Sample.noon "u1"
  = ([Printed (UserNotFound "u1"); Logged WARNING (UserNotFound "u1")],
     Ok false) /\
  (valid_HHMM "8:5" = false /\
   Strptime.parse "8:5" = Ok (mkTime 8 5 0 0) /\
   simulate_access
     (Sample.simulator [Sample.Loose] ["u1"] Sample.usa)
     Sample.noon "u1"
   = ([Logged INFO (PolicyGranted (JStr "Loose") "u1")], Ok true)).
Proof. concrete_time. Qed.

(** ** Time windows *)

Lemma time_cmp_spec (a b : time) :
  CompareSpec (a = b) (time_before a b) (time_before b a) (time_cmp a b).
Proof.
  destruct a as [h m s u], b as [h' m' s' u'].
  unfold time_cmp, time_before, lex; simpl.
  destruct (Nat.compare_spec h h'); [|constructor; lia ..].
  destruct (Nat.compare_spec m m'); [|constructor; lia ..].
  destruct (Nat.compare_spec s s'); [|constructor; lia ..].
  destruct (Nat.compare_spec u u'); constructor; try lia.
  congruence.
Qed.

Lemma time_before_irrefl (a : time) : ~ time_before a a.
Proof. unfold time_before. lia. Qed.

Lemma time_le_iff (a b : time) :
  time_le a b = true <-> ~ time_before b a.
Proof.
  unfold time_le. destruct (time_cmp_spec a b) as [-> | H | H].
  - split; [intros _; apply time_before_irrefl | reflexivity].
  - split; [|reflexivity]. intros _. unfold time_before in *. lia.
  - split; [discriminate | tauto].
Qed.

Lemma time_lt_iff (a b : time) :
  time_lt a b = true <-> time_before a b.
Proof.
  unfold time_lt. destruct (time_cmp_spec a b) as [-> | H | H].
  - split; [discriminate | intros H; destruct (time_before_irrefl _ H)].
  - tauto.
  - split; [discriminate|]. unfold time_before in *. lia.
Qed.

Lemma time_window_condition (conditions : json) (start_time end_time : time)
    (current_time : time) :
  time_window conditions start_time end_time ->
  time_condition current_time conditions =
    Ok (time_le start_time current_time && time_le current_time end_time).
Proof.
  intros (tr & s & e & Htr & Ht & Hs & He & Ps & Pe).
  unfold time_condition. rewrite Htr; simpl. rewrite Ht, Hs; simpl.
  rewrite Ps; simpl. rewrite He; simpl. rewrite Pe; reflexivity.
Qed.

Lemma parse_whole_minute (s : string) (t : time) :
  Strptime.parse s = Ok t -> second t = 0 /\ microsecond t = 0.
Proof.
  unfold Strptime.parse.
  destruct (Strptime.regex_match (list_ascii_of_string s))
    as [[[h m] [|c rest]]|]; intros H; try discriminate.
  injection H as <-. split; reflexivity.
Qed.

Lemma unset_time_condition (conditions tr : json) (current_time : time) :
  Py.get conditions "time" (JObj []) = Ok tr ->
  Py.truthy tr = false ->
  time_condition current_time conditions = Ok true.
Proof.
  intros Htr Ht. unfold time_condition. rewrite Htr; simpl. rewrite Ht.
  reflexivity.
Qed.

(** C7, as the code has it: a non-empty time entry is satisfied exactly
    when the parsed start is at or before the time of day of the call and
    that is at or before the parsed end, the time of the call taken with
    its seconds and microseconds and the parsed bounds being whole minutes,
    a missing start being 00:00 and a missing end 23:59.  The end is thus
    included at its first instant only: the rest of the end minute is
    outside.  An absent or empty time entry is satisfied at every time.
    The policy with the window 08:00 to 18:00 and no other condition
    matches all through the minute 12:00 and at the instants 08:00 and
    18:00, and matches nowhere in the minutes 07:59 and 18:01. *)
Theorem time_window_at_full_precision :
  (forall (conditions : json) (start_time end_time current_time : time),
     time_window conditions start_time end_time ->
     time_condition current_time conditions =
       Ok (time_le start_time current_time && time_le current_time end_time)
     /\ (time_condition current_time conditions = Ok true <->
         ~ time_before current_time start_time /\
         ~ time_before end_time current_time)
     /\ second start_time = 0 /\ microsecond start_time = 0
     /\ second end_time = 0 /\ microsecond end_time = 0
     /\ (hour current_time = hour end_time ->
         minute current_time = minute end_time ->
         0 < second current_time \/ 0 < microsecond current_time ->
         time_condition current_time conditions = Ok false)) /\
  (forall (conditions tr : json) (current_time : time),
     Py.get conditions "time" (JObj []) = Ok tr ->
     Py.truthy tr = false ->
     time_condition current_time conditions = Ok true) /\
  time_window (JObj [("time", JObj [("start_time", JStr "08:00")])])
    (mkTime 8 0 0 0) (mkTime 23 59 0 0) /\
  time_window (JObj [("time", JObj [("end_time", JStr "18:00")])])
    (mkTime 0 0 0 0) (mkTime 18 0 0 0) /\
  (forall (context_data : json) (s us : nat),
     conditions_met context_data (mkTime 12 0 s us) Sample.Office = Ok true /\
     conditions_met context_data (mkTime 7 59 s us) Sample.Office = Ok false /\
     conditions_met context_data (mkTime 18 1 s us) Sample.Office = Ok false) /\
  (forall (context_data : json),
     conditions_met context_data (mkTime 8 0 0 0) Sample.Office = Ok true /\
     conditions_met context_data (mkTime 18 0 0 0) Sample.Office = Ok true).
Proof.
  split; [|split; [|split; [|split; [|split]]]].
  - intros conditions ts te now Hw.
    pose proof (time_window_condition _ _ _ now Hw) as Hc.
    destruct Hw as (tr & s & e & _ & _ & _ & _ & Ps & Pe).
    destruct (parse_whole_minute _ _ Ps) as [Hss Hsu].
    destruct (parse_whole_minute _ _ Pe) as [Hes Heu].
    rewrite Hc.
    split; [reflexivity|].
    split; [|split; [exact Hss|split; [exact Hsu|split; [exact Hes|
      split; [exact Heu|]]]]].
    + rewrite <- !time_le_iff.
      destruct (time_le ts now), (time_le now te); simpl;
        intuition congruence.
    + intros Hh Hm Hlate. f_equal. apply andb_false_iff. right.
      destruct (time_le now te) eqn:Hle; [|reflexivity].
      apply time_le_iff in Hle. exfalso. apply Hle.
      unfold time_before. lia.
  - apply unset_time_condition.
  - concrete_time.
  - concrete_time.
  - intros ctx s us. repeat split; reflexivity.
  - intros ctx. split; reflexivity.
Qed.

(** The comparison is on the full time of day: the window still holds at
    the instant 18:00:00 and no longer one microsecond later. *)
Lemma window_end_is_an_instant (context_data : json) :
  conditions_met context_data (mkTime 18 0 0 0) Sample.Office = Ok true /\
  conditions_met context_data (mkTime 18 0 0 1) Sample.Office = Ok false /\
  conditions_met context_data (mkTime 18 0 59 0) Sample.Office = Ok false.
Proof. repeat split; reflexivity. Qed.

Lemma time_window_at_full_precision_witness :
  time_condition (mkTime 18 0 30 0)
    (JObj [Sample.window "08:00" "18:00"]) = Ok false /\
  time_condition (mkTime 12 30 15 0)
    (JObj [Sample.window "08:00" "18:00"]) = Ok true /\
  time_condition (mkTime 23 59 30 0) (JObj [("time", JObj [])]) = Ok true.
Proof.
  pose proof (proj1 time_window_at_full_precision
                (JObj [Sample.window "08:00" "18:00"])
                (mkTime 8 0 0 0) (mkTime 18 0 0 0)) as Hw.
  split; [|split].
  - destruct (Hw (mkTime 18 0 30 0) ltac:(concrete_time))
      as (_ & _ & _ & _ & _ & _ & Hend).
    apply Hend; [reflexivity | reflexivity | left; simpl; lia].
  - apply (proj1 (Hw (mkTime 12 30 15 0) ltac:(concrete_time))).
  - apply (proj1 (proj2 time_window_at_full_precision)
             (JObj [("time", JObj [])]) (JObj []) (mkTime 23 59 30 0));
      reflexivity.
Defined.

(** C7 as stated fails under both readings of the evaluation time.  Taken
    at the resolution of hours and minutes, as the specification has it,
    18:00:30 is inside the window 08:00 to 18:00, both ends included, and
    the code does not match there.  Taken at full precision, 23:59:30 is
    outside the default window 00:00 to 23:59, and the code is satisfied
    there when the time entry is unset. *)
Lemma time_window_counterexample :
  (time_window (JObj [Sample.window "08:00" "18:00"])
     (mkTime 8 0 0 0) (mkTime 18 0 0 0) /\
   spec_window (mkTime 8 0 0 0) (mkTime 18 0 0 0) (mkTime 18 0 30 0) = true /\
   conditions_met (JObj Sample.usa) (mkTime 18 0 30 0) Sample.Office
   = Ok false) /\
  (Strptime.parse "00:00" = Ok (mkTime 0 0 0 0) /\
   Strptime.parse "23:59" = Ok (mkTime 23 59 0 0) /\
   time_le (mkTime 0 0 0 0) (mkTime 23 59 30 0)
   && time_le (mkTime 23 59 30 0) (mkTime 23 59 0 0) = false /\
   time_condition (mkTime 23 59 30 0) (JObj []) = Ok true /\
   conditions_met (JObj Sample.usa) (mkTime 23 59 30 0) Sample.P2 = Ok true).
Proof. concrete_time. Qed.

(** C10: a time entry whose end parses to a time strictly before its start
    is satisfied at no time of day, and a policy carrying it never
    qualifies: no turn of the loop grants through it. *)
Theorem inverted_window_never_matches (conditions : json)
    (start_time end_time : time) :
  time_window conditions start_time end_time ->
  time_lt end_time start_time = true ->
  (forall current_time : time,
     time_condition current_time conditions = Ok false) /\
  (forall (user_id : string) (context_data : json) (current_time : time)
          (p : json),
     Py.get p "conditions" (JObj []) = Ok conditions ->
     ~ qualifies user_id context_data current_time p /\
     forall name : json,
       policy_body user_id context_data current_time p
       <> Ok (Granting name)).
Proof.
  intros Hw Hlt.
  assert (Hnever : forall now, time_condition now conditions = Ok false).
  { intros now. rewrite (time_window_condition _ _ _ now Hw). f_equal.
    apply time_lt_iff in Hlt.
    destruct (time_le start_time now) eqn:H1; [|reflexivity].
    destruct (time_le now end_time) eqn:H2; [|reflexivity].
    apply time_le_iff in H1. apply time_le_iff in H2.
    unfold time_before in *. lia. }
  split; [exact Hnever|].
  intros uid ctx now p Hc.
  assert (Hq : ~ qualifies uid ctx now p).
  { intros (_ & _ & Hm & _). unfold conditions_met in Hm.
    rewrite Hc in Hm; simpl in Hm. rewrite Hnever in Hm; simpl in Hm.
    destruct (location_condition ctx conditions); simpl in Hm;
      [|discriminate].
    destruct (device_health_condition ctx conditions); simpl in Hm;
      discriminate. }
  split; [exact Hq|].
  intros name Hb. apply Hq.
  apply (body_granting uid ctx now p name Hb).
Qed.

Lemma inverted_window_never_matches_witness :
  (forall current_time : time,
     time_condition current_time (JObj [Sample.window "22:00" "06:00"])
     = Ok false) /\
  (forall (user_id : string) (context_data : json) (current_time : time)
          (p : json),
     Py.get p "conditions" (JObj [])
       = Ok (JObj [Sample.window "22:00" "06:00"]) ->
     ~ qualifies user_id context_data current_time p /\
     forall name : json,
       policy_body user_id context_data current_time p
       <> Ok (Granting name)).
Proof.
  apply (inverted_window_never_matches
           (JObj [Sample.window "22:00" "06:00"])
           (mkTime 22 0 0 0) (mkTime 6 0 0 0));
    [concrete_time | reflexivity].
Defined.

(** ** The clock *)

Lemma timeless_body (user_id : string) (context_data : json) (t1 t2 : time)
    (p : json) :
  timeless p ->
  policy_body user_id context_data t1 p
  = policy_body user_id context_data t2 p.
Proof.
  intros Hp. unfold policy_body, conditions_met.
  destruct (policy_enabled p) as [[|]|]; simpl; try reflexivity.
  destruct (policy_applies user_id p) as [[|]|]; simpl; try reflexivity.
  destruct (Py.get p "conditions" (JObj [])) as [conditions|] eqn:Hc;
    simpl; try reflexivity.
  assert (Ht : time_condition t1 conditions = time_condition t2 conditions).
  { unfold time_condition.
    destruct (Py.get conditions "time" (JObj [])) as [tr|] eqn:Htr;
      simpl; try reflexivity.
    rewrite (Hp conditions tr Hc Htr). reflexivity. }
  rewrite Ht. reflexivity.
Qed.

Lemma timeless_scan (user_id : string) (context_data : json) (t1 t2 : time)
    (ps : list json) :
  Forall timeless ps ->
  scan user_id context_data t1 ps = scan user_id context_data t2 ps.
Proof.
  induction 1 as [|p ps Hp _ IH]; [reflexivity|].
  rewrite !scan_cons, (timeless_body user_id context_data t1 t2 p Hp), IH.
  reflexivity.
Qed.

(** C9, as the code has it: besides the three documents and the subject id
    the call depends on the reading of the clock, and on nothing of it but
    the time of day; when no policy has a time entry to check, the result
    is the same at every reading. *)
Theorem clock_is_an_input (self : PolicySimulator) (user_id : string)
    (clock1 clock2 : datetime) :
  (time_of clock1 = time_of clock2 ->
   simulate_access self clock1 user_id = simulate_access self clock2 user_id)
  /\
  ((forall ps, policy_list self = Ok ps -> Forall timeless ps) ->
   simulate_access self clock1 user_id = simulate_access self clock2 user_id).
Proof.
  split.
  - intros Ht. unfold simulate_access. rewrite Ht. reflexivity.
  - intros Hps. unfold simulate_access.
    destruct (negb (Py.truthy (policies self))
              || negb (Py.truthy (users self))
              || negb (Py.truthy (context self))); [reflexivity|].
    destruct (find_user (users self) user_id) as [user|e];
      [rewrite !mbind_lift_ok | reflexivity].
    destruct (negb (Py.truthy user)); [reflexivity|].
    destruct (Py.get (context self) "context" (JObj [])) as [ctx|e];
      [rewrite !mbind_lift_ok | reflexivity].
    destruct (policy_list self) as [ps|e]; [|reflexivity].
    rewrite !mbind_lift_ok.
    rewrite (timeless_scan user_id ctx (time_of clock1) (time_of clock2) ps
               (Hps ps eq_refl)).
    reflexivity.
Qed.

Lemma clock_is_an_input_witness :
  simulate_access (Sample.simulator [Sample.Office] ["u1"] Sample.usa)
    (mkDatetime 2024 1 15 (mkTime 19 0 0 0)) "u1"
  = simulate_access (Sample.simulator [Sample.Office] ["u1"] Sample.usa)
      (mkDatetime 2025 6 30 (mkTime 19 0 0 0)) "u1" /\
  simulate_access (Sample.simulator [Sample.P1] ["u1"] Sample.usa)
    (Sample.at_time 12 0) "u1"
  = simulate_access (Sample.simulator [Sample.P1] ["u1"] Sample.usa)
      (Sample.at_time 19 0) "u1".
Proof.
  split.
  - apply (proj1 (clock_is_an_input
                    (Sample.simulator [Sample.Office] ["u1"] Sample.usa) "u1"
                    (mkDatetime 2024 1 15 (mkTime 19 0 0 0))
                    (mkDatetime 2025 6 30 (mkTime 19 0 0 0)))).
    reflexivity.
  - apply (proj2 (clock_is_an_input
                    (Sample.simulator [Sample.P1] ["u1"] Sample.usa) "u1"
                    (Sample.at_time 12 0) (Sample.at_time 19 0))).
    intros ps Hps. injection Hps as <-.
    constructor; [|constructor].
    intros conditions tr Hc Htr.
    injection Hc as <-. injection Htr as <-. reflexivity.
Defined.

(** C9 as stated fails: the same documents and the same subject, and the
    decision differs with the hour at which the clock is read. *)
Lemma clock_counterexample :
  simulate_access (Sample.simulator [Sample.Office] ["u1"] Sample.usa)
    (Sample.at_time 12 0) "u1"
  = ([Logged INFO (PolicyGranted (JStr "Office") "u1")], Ok true) /\
  simulate_access (Sample.simulator [Sample.Office] ["u1"] Sample.usa)
    (Sample.at_time 19 0) "u1"
  = ([Logged INFO (AccessDenied "u1")], Ok false).
Proof. split; reflexivity. Qed.

(** ** What a call leaves behind *)

Section Trail.

Variable user_id : string.
Variable context_data : json.
Variable current_time : time.

Let body := policy_body user_id context_data current_time.
Let loop := scan user_id context_data current_time.

Lemma entry_for_cons (p : json) (ps : list json) (e : event) :
  entry_for user_id context_data current_time ps e ->
  entry_for user_id context_data current_time (p :: ps) e.
Proof.
  intros (name & q & Hin & Hn & H). exists name, q. simpl; auto.
Qed.

Lemma scan_entries (ps : list json) (e : event) :
  In e (output (loop ps)) ->
  entry_for user_id context_data current_time ps e.
Proof.
  unfold loop.
  induction ps as [|p ps IH]; [intros []|].
  rewrite scan_cons.
  destruct (policy_body user_id context_data current_time p)
    as [[|name|name]|x] eqn:Hb.
  - intros H. apply entry_for_cons, IH, H.
  - apply body_not_granting in Hb. destruct Hb as [Hm Hn].
    intros [<- | H]; [|apply entry_for_cons, IH, H].
    exists name, p. simpl; auto.
  - apply body_granting in Hb. destruct Hb as [Hq Hn].
    intros [<- | []]. exists name, p. simpl; auto.
  - intros [].
Qed.

Lemma scan_granted_iff (ps : list json) :
  outcome (loop ps) = Ok true <->
  exists name, authorizing (output (loop ps)) = Some name.
Proof.
  unfold loop.
  induction ps as [|p ps IH].
  - simpl. split; [discriminate | intros [? H]; discriminate].
  - rewrite scan_cons.
    destruct (policy_body user_id context_data current_time p)
      as [[|name|name]|x]; simpl.
    + exact IH.
    + exact IH.
    + split; eauto.
    + split; [discriminate | intros [? H]; discriminate].
Qed.

(** A policy whose turn is silent can be taken out of the list. *)
Lemma scan_silent (pre post : list json) (p : json) :
  body p = Ok Next -> loop (pre ++ p :: post) = loop (pre ++ post).
Proof.
  unfold loop, body.
  intros Hp. induction pre as [|q pre IH]; simpl app.
  - rewrite scan_cons, Hp. reflexivity.
  - rewrite !scan_cons, IH. reflexivity.
Qed.

End Trail.

Lemma entry_not_denied (user_id : string) (context_data : json)
    (current_time : time) (ps : list json) :
  ~ entry_for user_id context_data current_time ps
      (Logged INFO (AccessDenied user_id)).
Proof.
  intros (name & p & _ & _ & [[H _] | [H _]]); discriminate.
Qed.

(** C8, as the code has it: the call returns the boolean alone; the name of
    the granting policy and the record of the policies are in the output.
    When the call gets to the loop and returns, a "granted" entry is there
    exactly when the result is [True] and names a policy of the list that
    qualifies; every "applied but does not grant" entry names a policy of
    the list that matched without granting, and every policy that the loop
    reaches and that matches without granting has its entry, right after
    the entries of the policies in front of it; the "access denied" entry
    is there exactly when the result is [False]; and a policy whose turn is
    silent (disabled, not targeting the subject, or with a condition not
    satisfied) leaves no entry: the call is the same without it. *)
Theorem output_is_the_trail (self : PolicySimulator) (clock : datetime)
    (user_id : string) (context_data : json) (ps : list json)
    (out : list event) (b : bool) :
  reaches_loop self user_id context_data ps ->
  simulate_access self clock user_id = (out, Ok b) ->
  (b = true <-> exists name, authorizing out = Some name) /\
  (b = false <-> In (Logged INFO (AccessDenied user_id)) out) /\
  (forall e, In e out ->
     e = Logged INFO (AccessDenied user_id) \/
     entry_for user_id context_data (time_of clock) ps e) /\
  (forall (pre post : list json) (p name : json),
     ps = pre ++ p :: post ->
     Forall (passed user_id context_data (time_of clock)) pre ->
     matches_without_granting user_id context_data (time_of clock) p ->
     policy_name p = Ok name ->
     exists later,
       out = output (scan user_id context_data (time_of clock) pre)
             ++ Logged INFO (PolicyNotGranting name user_id) :: later) /\
  (forall (pre post : list json) (p : json) (self' : PolicySimulator),
     ps = pre ++ p :: post ->
     policy_body user_id context_data (time_of clock) p = Ok Next ->
     reaches_loop self' user_id context_data (pre ++ post) ->
     simulate_access self' clock user_id = (out, Ok b)).
Proof.
  intros Hr Hsim.
  pose proof (simulate_access_loop self clock user_id context_data ps Hr)
    as Hloop.
  assert (Hskip : forall pre post p self',
    ps = pre ++ p :: post ->
    policy_body user_id context_data (time_of clock) p = Ok Next ->
    reaches_loop self' user_id context_data (pre ++ post) ->
    simulate_access self' clock user_id = (out, Ok b)).
  { intros pre post p self' -> Hp Hr'.
    rewrite (simulate_access_loop self' clock _ _ _ Hr').
    rewrite <- (scan_silent user_id context_data (time_of clock)
                  pre post p Hp).
    rewrite <- Hloop. exact Hsim. }
  assert (Hnote : forall pre post p name,
    ps = pre ++ p :: post ->
    Forall (passed user_id context_data (time_of clock)) pre ->
    matches_without_granting user_id context_data (time_of clock) p ->
    policy_name p = Ok name ->
    exists later,
      out = output (scan user_id context_data (time_of clock) pre)
            ++ Logged INFO (PolicyNotGranting name user_id) :: later).
  { intros pre post p name -> Hpre Hm Hn.
    rewrite Hloop in Hsim.
    destruct (scan_passed_app user_id context_data (time_of clock) pre
                (p :: post) Hpre) as [Happ _].
    rewrite Happ in Hsim.
    rewrite scan_cons, (matching_body _ _ _ p name Hm Hn) in Hsim.
    unfold output at 2, outcome at 1 in Hsim. cbn [fst snd] in Hsim.
    destruct (outcome (scan user_id context_data (time_of clock) post))
      as [[|]|x]; try discriminate; injection Hsim as <- _;
      rewrite <- app_assoc; eexists; reflexivity. }
  pose proof (scan_granted_iff user_id context_data (time_of clock) ps)
    as Hiff.
  pose proof (scan_entries user_id context_data (time_of clock) ps)
    as Hent.
  destruct (scan user_id context_data (time_of clock) ps)
    as [o [[|]|x]] eqn:Hscan; rewrite Hloop in Hsim;
    unfold output, outcome in Hiff, Hent; simpl in Hiff, Hent.
  - injection Hsim as <- <-. rewrite app_nil_r.
    split; [|split; [|split; [|split]]].
    + split; [intros _; apply Hiff; reflexivity | reflexivity].
    + split; [discriminate|].
      intros Hin. apply Hent in Hin.
      destruct (entry_not_denied _ _ _ _ Hin).
    + intros e He. right. apply Hent, He.
    + rewrite app_nil_r in Hnote. exact Hnote.
    + rewrite app_nil_r in Hskip. exact Hskip.
  - injection Hsim as <- <-.
    assert (Hnone : authorizing o = None).
    { destruct (authorizing o) as [name|] eqn:Ha; [|reflexivity].
      assert (H : Ok false = Ok true) by (apply Hiff; eauto).
      discriminate. }
    split; [|split; [|split; [|split]]].
    + rewrite authorizing_app_none by exact Hnone; simpl.
      split; [discriminate | intros [? H]; discriminate].
    + split; [|reflexivity].
      intros _. apply in_or_app. right. left. reflexivity.
    + intros e He. apply in_app_or in He. destruct He as [He | [<- | []]].
      * right. apply Hent, He.
      * left. reflexivity.
    + exact Hnote.
    + exact Hskip.
  - discriminate.
Qed.

Lemma output_is_the_trail_witness :
  let self := Sample.simulator
                [Sample.Off; Sample.Audit; Sample.Other; Sample.P2]
                ["u1"] Sample.usa in
  let out := [Logged INFO (PolicyNotGranting (JStr "Audit") "u1");
              Logged INFO (PolicyGranted (JStr "P2") "u1")] in
  (true = true <-> exists name, authorizing out = Some name) /\
  (true = false <-> In (Logged INFO (AccessDenied "u1")) out) /\
  (forall e, In e out ->
     e = Logged INFO (AccessDenied "u1") \/
     entry_for "u1" (JObj Sample.usa) (time_of Sample.noon)
       [Sample.Off; Sample.Audit; Sample.Other; Sample.P2] e) /\
  (forall (pre post : list json) (p name : json),
     [Sample.Off; Sample.Audit; Sample.Other; Sample.P2] = pre ++ p :: post ->
     Forall (passed "u1" (JObj Sample.usa) (time_of Sample.noon)) pre ->
     matches_without_granting "u1" (JObj Sample.usa) (time_of Sample.noon)
       p ->
     policy_name p = Ok name ->
     exists later,
       out = output (scan "u1" (JObj Sample.usa) (time_of Sample.noon) pre)
             ++ Logged INFO (PolicyNotGranting name "u1") :: later) /\
  (forall (pre post : list json) (p : json) (self' : PolicySimulator),
     [Sample.Off; Sample.Audit; Sample.Other; Sample.P2] = pre ++ p :: post ->
     policy_body "u1" (JObj Sample.usa) (time_of Sample.noon) p = Ok Next ->
     reaches_loop self' "u1" (JObj Sample.usa) (pre ++ post) ->
     simulate_access self' Sample.noon "u1" = (out, Ok true)).
Proof.
  intros self out.
  apply (output_is_the_trail self Sample.noon "u1" (JObj Sample.usa)
           [Sample.Off; Sample.Audit; Sample.Other; Sample.P2] out true);
    concrete.
Defined.

(** C8 as stated fails: two calls return the same value while different
    policies granted, so the value returned does not carry the name; and a
    call over a list with a disabled policy, one for another subject and
    one whose condition is not satisfied gives, output included, what the
    call without them gives, so these policies are not listed anywhere. *)
Lemma trail_counterexample :
  (outcome (simulate_access
              (Sample.simulator [Sample.P2] ["u1"] Sample.canada)
              Sample.noon "u1")
   = outcome (simulate_access
                (Sample.simulator [Sample.P3] ["u1"] Sample.canada)
                Sample.noon "u1") /\
   authorizing (output (simulate_access
                          (Sample.simulator [Sample.P2] ["u1"] Sample.canada)
                          Sample.noon "u1"))
   = Some (JStr "P2") /\
   authorizing (output (simulate_access
                          (Sample.simulator [Sample.P3] ["u1"] Sample.canada)
                          Sample.noon "u1"))
   = Some (JStr "P3")) /\
  simulate_access
    (Sample.simulator [Sample.Off; Sample.Other; Sample.P1; Sample.P2]
       ["u1"] Sample.canada)
    Sample.noon "u1"
  = simulate_access (Sample.simulator [Sample.P2] ["u1"] Sample.canada)
      Sample.noon "u1".
Proof. repeat split; reflexivity. Qed.

(** ** The decision as a whole *)

Lemma eqb_text (v : json) (s : string) :
  Py.eqb v (JStr s) = true <-> v = JStr s.
Proof.
  destruct v; simpl; try (split; [discriminate | intros H; discriminate]).
  rewrite String.eqb_eq. split; [intros -> | intros H; injection H]; auto.
Qed.

Lemma get_dict (d : json) (k : string) (default v : json) :
  Py.get d k default = Ok v ->
  exists fields, d = JObj fields /\
    (Py.lookup k fields = Some v \/
     (Py.lookup k fields = None /\ v = default)).
Proof.
  destruct d; simpl; try discriminate.
  destruct (Py.lookup k fields) eqn:Hk; intros H; injection H as <-; eauto.
Qed.

Section Decision.

Variable user_id : string.
Variable context_data : json.
Variable current_time : time.

Lemma grantsb_qualifies (p : json) :
  grantsb user_id context_data current_time p = true <->
  qualifies user_id context_data current_time p.
Proof.
  unfold grantsb. split.
  - destruct (policy_body user_id context_data current_time p)
      as [[|name|name]|e] eqn:Hb; try discriminate.
    intros _. apply (body_granting _ _ _ _ _ Hb).
  - intros Hq. destruct (qualifies_named _ _ _ _ Hq) as [name Hn].
    rewrite (qualifies_body _ _ _ _ _ Hq Hn). reflexivity.
Qed.

Lemma scan_decision (ps : list json) :
  Forall (examined user_id context_data current_time) ps ->
  outcome (scan user_id context_data current_time ps)
  = Ok (existsb (grantsb user_id context_data current_time) ps).
Proof.
  induction 1 as [|p ps [v Hv] _ IH]; [reflexivity|].
  rewrite scan_cons. simpl existsb. unfold grantsb at 1. rewrite Hv.
  destruct v as [|name|name]; simpl; auto.
Qed.

(** A policy that qualifies is a dict with the status "enabled" and a
    "grant_controls" dict with the access "grant", as exact texts. *)
Lemma qualifies_exact (p : json) :
  qualifies user_id context_data current_time p ->
  exists fields gc,
    p = JObj fields /\
    Py.lookup "status" fields = Some (JStr "enabled") /\
    Py.lookup "grant_controls" fields = Some (JObj gc) /\
    Py.lookup "access" gc = Some (JStr "grant").
Proof.
  intros (He & _ & _ & Hg).
  unfold policy_enabled in He. unfold grants_access in Hg.
  destruct (Py.get p "status" JNull) as [st|] eqn:Hst; [|discriminate].
  simpl in He. injection He as He. apply eqb_text in He. subst st.
  destruct (get_dict _ _ _ _ Hst) as (fields & -> & [Hs | [_ Hs]]);
    [|discriminate].
  destruct (Py.get (JObj fields) "grant_controls" (JObj [])) as [g|] eqn:Hgc;
    [|discriminate].
  simpl in Hg.
  destruct (Py.get g "access" JNull) as [a|] eqn:Ha; [|discriminate].
  simpl in Hg. injection Hg as Hg. apply eqb_text in Hg. subst a.
  destruct (get_dict _ _ _ _ Ha) as (gc & -> & [Hacc | [_ Hacc]]);
    [|discriminate].
  destruct (get_dict _ _ _ _ Hgc) as (f' & Hf & [Hl | [_ Hl]]).
  - injection Hf as <-. exists fields, gc. auto.
  - injection Hl as ->. discriminate.
Qed.

End Decision.

Lemma simulate_access_outcome (self : PolicySimulator) (clock : datetime)
    (user_id : string) (context_data : json) (ps : list json) :
  reaches_loop self user_id context_data ps ->
  outcome (simulate_access self clock user_id)
  = outcome (scan user_id context_data (time_of clock) ps).
Proof.
  intros Hr. rewrite (simulate_access_loop _ clock _ _ _ Hr).
  destruct (scan user_id context_data (time_of clock) ps) as [out [[|]|e]];
    reflexivity.
Qed.

(** X1: when the call gets to the loop and no policy raises, access is
    granted exactly when some policy of the list qualifies, and denied
    exactly when none does. *)
Theorem granted_iff_some_policy_qualifies (self : PolicySimulator)
    (clock : datetime) (user_id : string) (context_data : json)
    (ps : list json) :
  reaches_loop self user_id context_data ps ->
  Forall (examined user_id context_data (time_of clock)) ps ->
  (outcome (simulate_access self clock user_id) = Ok true <->
   Exists (qualifies user_id context_data (time_of clock)) ps) /\
  (outcome (simulate_access self clock user_id) = Ok false <->
   ~ Exists (qualifies user_id context_data (time_of clock)) ps).
Proof.
  intros Hr Hex.
  rewrite (simulate_access_outcome _ clock _ _ _ Hr), (scan_decision _ _ _ _ Hex).
  assert (Hiff : existsb (grantsb user_id context_data (time_of clock)) ps
                 = true <->
                 Exists (qualifies user_id context_data (time_of clock)) ps).
  { rewrite existsb_exists, Exists_exists.
    split; intros (p & Hin & Hp); exists p; split; auto;
      apply grantsb_qualifies; exact Hp. }
  destruct (existsb (grantsb user_id context_data (time_of clock)) ps).
  - split; [tauto|]. split; [discriminate|].
    intros Hn. destruct Hn. apply Hiff. reflexivity.
  - split.
    + split; [discriminate|]. intros H. apply Hiff in H. discriminate.
    + split; [|reflexivity]. intros _ H. apply Hiff in H. discriminate.
Qed.

Lemma granted_iff_some_policy_qualifies_witness :
  let self := Sample.simulator
                [Sample.Off; Sample.Audit; Sample.Other; Sample.P2]
                ["u1"] Sample.usa in
  let ps := [Sample.Off; Sample.Audit; Sample.Other; Sample.P2] in
  (outcome (simulate_access self Sample.noon "u1") = Ok true <->
   Exists (qualifies "u1" (JObj Sample.usa) (time_of Sample.noon)) ps) /\
  (outcome (simulate_access self Sample.noon "u1") = Ok false <->
   ~ Exists (qualifies "u1" (JObj Sample.usa) (time_of Sample.noon)) ps).
Proof.
  intros self ps.
  apply (granted_iff_some_policy_qualifies self Sample.noon "u1"
           (JObj Sample.usa) ps); concrete.
Defined.

(** X2: when no policy raises, the order of the policies changes nothing of
    the decision (it changes only which policy is named). *)
Theorem decision_ignores_order (self self' : PolicySimulator)
    (clock : datetime) (user_id : string) (context_data : json)
    (ps ps' : list json) :
  reaches_loop self user_id context_data ps ->
  reaches_loop self' user_id context_data ps' ->
  Permutation ps ps' ->
  Forall (examined user_id context_data (time_of clock)) ps ->
  outcome (simulate_access self clock user_id)
  = outcome (simulate_access self' clock user_id).
Proof.
  intros Hr Hr' Hperm Hex.
  assert (Hex' : Forall (examined user_id context_data (time_of clock)) ps').
  { rewrite Forall_forall in *. intros p Hin. apply Hex.
    apply (Permutation_in p (Permutation_sym Hperm) Hin). }
  rewrite (simulate_access_outcome _ clock _ _ _ Hr),
    (simulate_access_outcome _ clock _ _ _ Hr'),
    (scan_decision _ _ _ _ Hex), (scan_decision _ _ _ _ Hex').
  f_equal.
  destruct (existsb (grantsb user_id context_data (time_of clock)) ps)
    eqn:H1;
    destruct (existsb (grantsb user_id context_data (time_of clock)) ps')
      eqn:H2; try reflexivity.
  - apply existsb_exists in H1. destruct H1 as (p & Hin & Hp).
    assert (H : existsb (grantsb user_id context_data (time_of clock)) ps'
                = true).
    { apply existsb_exists. exists p. split; [|exact Hp].
      apply (Permutation_in p Hperm Hin). }
    congruence.
  - apply existsb_exists in H2. destruct H2 as (p & Hin & Hp).
    assert (H : existsb (grantsb user_id context_data (time_of clock)) ps
                = true).
    { apply existsb_exists. exists p. split; [|exact Hp].
      apply (Permutation_in p (Permutation_sym Hperm) Hin). }
    congruence.
Qed.

Lemma decision_ignores_order_witness :
  outcome (simulate_access
             (Sample.simulator [Sample.Audit; Sample.P2; Sample.P3] ["u1"]
                Sample.usa) Sample.noon "u1")
  = outcome (simulate_access
               (Sample.simulator [Sample.P3; Sample.Audit; Sample.P2] ["u1"]
                  Sample.usa) Sample.noon "u1").
Proof.
  apply (decision_ignores_order _ _ Sample.noon "u1" (JObj Sample.usa)
           [Sample.Audit; Sample.P2; Sample.P3]
           [Sample.P3; Sample.Audit; Sample.P2]);
    [concrete | concrete | | concrete].
  apply Permutation_sym.
  apply (Permutation_cons_app [Sample.Audit; Sample.P2] [] Sample.P3).
  apply Permutation_refl.
Defined.

Lemma scan_true_exists (user_id : string) (context_data : json)
    (current_time : time) (ps : list json) :
  outcome (scan user_id context_data current_time ps) = Ok true ->
  Exists (qualifies user_id context_data current_time) ps.
Proof.
  induction ps as [|p ps IH]; [discriminate|].
  rewrite scan_cons.
  destruct (policy_body user_id context_data current_time p)
    as [[|name|name]|e] eqn:Hb; simpl.
  - intros H. apply Exists_cons_tl, IH, H.
  - intros H. apply Exists_cons_tl, IH, H.
  - intros _. apply Exists_cons_hd. apply (body_granting _ _ _ _ _ Hb).
  - discriminate.
Qed.

(** X3: the call returns [True] only when the three documents are
    non-empty, the subject is in the directory and the list holds a policy
    that qualifies, which is then a dict with the exact status "enabled"
    and the exact access "grant".  Nothing else ever grants. *)
Theorem grant_needs_a_qualifying_policy (self : PolicySimulator)
    (clock : datetime) (user_id : string) :
  outcome (simulate_access self clock user_id) = Ok true ->
  data_loaded self = true /\
  known_subject (users self) user_id /\
  exists context_data ps p fields gc,
    Py.get (context self) "context" (JObj []) = Ok context_data /\
    policy_list self = Ok ps /\
    In p ps /\
    qualifies user_id context_data (time_of clock) p /\
    p = JObj fields /\
    Py.lookup "status" fields = Some (JStr "enabled") /\
    Py.lookup "grant_controls" fields = Some (JObj gc) /\
    Py.lookup "access" gc = Some (JStr "grant").
Proof.
  intros H. pose proof H as H0.
  destruct (data_loaded self) eqn:Hl;
    [|rewrite (not_loaded _ _ _ Hl) in H; discriminate].
  unfold simulate_access in H.
  rewrite data_loaded_guard, Hl in H; simpl negb in H; cbv iota in H.
  destruct (find_user (users self) user_id) as [user|e] eqn:Hu;
    [rewrite mbind_lift_ok in H | discriminate].
  destruct (Py.truthy user) eqn:Ht; simpl negb in H; cbv iota in H;
    [|discriminate].
  destruct (Py.get (context self) "context" (JObj [])) as [ctx|e] eqn:Hc;
    [rewrite mbind_lift_ok in H | discriminate].
  destruct (policy_list self) as [ps|e] eqn:Hp; [|discriminate].
  clear H.
  assert (Hr : reaches_loop self user_id ctx ps).
  { unfold reaches_loop, known_subject. eauto 6. }
  rewrite (simulate_access_outcome _ clock _ _ _ Hr) in H0.
  apply scan_true_exists in H0. apply Exists_exists in H0.
  destruct H0 as (p & Hin & Hq).
  destruct (qualifies_exact _ _ _ _ Hq) as (fields & gc & Hf & Hs & Hg & Ha).
  split; [reflexivity|]. split; [exists user; auto|].
  exists ctx, ps, p, fields, gc. auto 10.
Qed.

Lemma grant_needs_a_qualifying_policy_witness :
  let self := Sample.simulator [Sample.Audit; Sample.P2] ["u1"] Sample.usa in
  data_loaded self = true /\
  known_subject (users self) "u1" /\
  exists context_data ps p fields gc,
    Py.get (context self) "context" (JObj []) = Ok context_data /\
    policy_list self = Ok ps /\
    In p ps /\
    qualifies "u1" context_data (time_of Sample.noon) p /\
    p = JObj fields /\
    Py.lookup "status" fields = Some (JStr "enabled") /\
    Py.lookup "grant_controls" fields = Some (JObj gc) /\
    Py.lookup "access" gc = Some (JStr "grant").
Proof.
  intros self.
  apply (grant_needs_a_qualifying_policy self Sample.noon "u1").
  reflexivity.
Defined.

Lemma scan_shape (user_id : string) (context_data : json)
    (current_time : time) (ps : list json) :
  exists notes,
    Forall (is_note user_id) notes /\
    (outcome (scan user_id context_data current_time ps) = Ok true ->
     exists name,
       output (scan user_id context_data current_time ps)
       = notes ++ [Logged INFO (PolicyGranted name user_id)]) /\
    (outcome (scan user_id context_data current_time ps) = Ok false ->
     output (scan user_id context_data current_time ps) = notes).
Proof.
  induction ps as [|p ps (notes & Hn & Ht & Hf)].
  - exists []. simpl. repeat split; auto; discriminate.
  - rewrite scan_cons.
    destruct (policy_body user_id context_data current_time p)
      as [[|name|name]|e].
    + exists notes. auto.
    + exists (Logged INFO (PolicyNotGranting name user_id) :: notes).
      unfold output, outcome in *; simpl fst; simpl snd.
      split; [constructor; [exists name; reflexivity | exact Hn]|].
      split.
      * intros H. destruct (Ht H) as [n ->]. exists n. reflexivity.
      * intros H. rewrite (Hf H). reflexivity.
    + exists []. simpl. repeat split; eauto. discriminate.
    + exists []. simpl. repeat split; auto; discriminate.
Qed.

(** X4: the output of a call that gets to the loop and returns is a run of
    "applied but does not grant" entries closed by exactly one more entry:
    the "granted" entry when the result is [True], the "access denied"
    entry when it is [False]. *)
Theorem output_is_notes_then_verdict (self : PolicySimulator)
    (clock : datetime) (user_id : string) (context_data : json)
    (ps : list json) (out : list event) (b : bool) :
  reaches_loop self user_id context_data ps ->
  simulate_access self clock user_id = (out, Ok b) ->
  exists notes,
    Forall (is_note user_id) notes /\
    if b
    then exists name,
           out = notes ++ [Logged INFO (PolicyGranted name user_id)]
    else out = notes ++ [Logged INFO (AccessDenied user_id)].
Proof.
  intros Hr Hsim.
  rewrite (simulate_access_loop _ clock _ _ _ Hr) in Hsim.
  destruct (scan_shape user_id context_data (time_of clock) ps)
    as (notes & Hn & Ht & Hf).
  exists notes. split; [exact Hn|].
  destruct (scan user_id context_data (time_of clock) ps) as [o [[|]|e]];
    unfold output, outcome in Ht, Hf; simpl in Ht, Hf.
  - injection Hsim as <- <-. rewrite app_nil_r. apply Ht. reflexivity.
  - injection Hsim as <- <-. rewrite (Hf eq_refl). reflexivity.
  - discriminate.
Qed.

Lemma output_is_notes_then_verdict_witness :
  exists notes,
    Forall (is_note "u1") notes /\
    [Logged INFO (PolicyNotGranting (JStr "Audit") "u1");
     Logged INFO (AccessDenied "u1")]
    = notes ++ [Logged INFO (AccessDenied "u1")].
Proof.
  apply (output_is_notes_then_verdict
           (Sample.simulator [Sample.Off; Sample.Audit; Sample.P1] ["u1"]
              Sample.canada)
           Sample.noon "u1" (JObj Sample.canada)
           [Sample.Off; Sample.Audit; Sample.P1]
           [Logged INFO (PolicyNotGranting (JStr "Audit") "u1");
            Logged INFO (AccessDenied "u1")] false);
    concrete.
Defined.

(** ** Policies that are passed over *)

Lemma eqb_text_l (s : string) (v : json) :
  Py.eqb (JStr s) v = true <-> v = JStr s.
Proof.
  destruct v; simpl; try (split; [discriminate | intros H; discriminate]).
  rewrite String.eqb_eq.
  split; [intros -> | intros H; injection H]; auto.
Qed.

Lemma not_listed (user_id : string) (l : list json) :
  Forall (fun u => u <> JStr user_id) l ->
  existsb (fun y => Py.eqb (JStr user_id) y) l = false.
Proof.
  induction 1 as [|u l Hu _ IH]; [reflexivity|]. cbn [existsb]. rewrite IH.
  destruct (Py.eqb (JStr user_id) u) eqn:He; [|reflexivity].
  apply eqb_text_l in He. contradiction.
Qed.

Lemma skipped_body (user_id : string) (context_data : json)
    (current_time : time) (fields : list (string * json)) :
  Py.lookup "status" fields <> Some (JStr "enabled") \/
  Py.lookup "users" fields = None \/
  (exists l, Py.lookup "users" fields = Some (JArr l) /\
             Forall (fun u => u <> JStr user_id) l) ->
  policy_body user_id context_data current_time (JObj fields) = Ok Next.
Proof.
  intros H. unfold policy_body, policy_enabled, policy_applies. simpl.
  destruct (Py.lookup "status" fields) as [st|] eqn:Hst; simpl;
    [|reflexivity].
  destruct (Py.eqb st (JStr "enabled")) eqn:He; simpl; [|reflexivity].
  apply eqb_text in He. subst st.
  destruct H as [H | [H | (l & H & Hl)]].
  - congruence.
  - rewrite H. reflexivity.
  - rewrite H. cbn [bind Py.contains]. rewrite (not_listed _ _ Hl).
    reflexivity.
Qed.

(** X5: a policy whose status is not exactly "enabled", or that has no
    "users" entry, or whose "users" list does not hold the subject's id, is
    never evaluated: whatever else it contains raises nothing, and the call
    gives the same result and the same output as without it. *)
Theorem skipped_policy_changes_nothing (self self' : PolicySimulator)
    (clock : datetime) (user_id : string) (context_data : json)
    (pre post : list json) (fields : list (string * json)) :
  reaches_loop self user_id context_data (pre ++ JObj fields :: post) ->
  reaches_loop self' user_id context_data (pre ++ post) ->
  Py.lookup "status" fields <> Some (JStr "enabled") \/
  Py.lookup "users" fields = None \/
  (exists l, Py.lookup "users" fields = Some (JArr l) /\
             Forall (fun u => u <> JStr user_id) l) ->
  simulate_access self clock user_id = simulate_access self' clock user_id.
Proof.
  intros Hr Hr' H.
  rewrite (simulate_access_loop _ clock _ _ _ Hr),
    (simulate_access_loop _ clock _ _ _ Hr').
  rewrite (scan_silent user_id context_data (time_of clock) pre post
             (JObj fields)
             (skipped_body user_id context_data (time_of clock) fields H)).
  reflexivity.
Qed.

Lemma skipped_policy_changes_nothing_witness :
  simulate_access
    (Sample.simulator [Sample.Audit; Fixture.Wreck; Sample.P2] ["u1"]
       Sample.usa) Sample.noon "u1"
  = simulate_access
      (Sample.simulator [Sample.Audit; Sample.P2] ["u1"] Sample.usa)
      Sample.noon "u1".
Proof.
  apply (skipped_policy_changes_nothing _ _ Sample.noon "u1"
           (JObj Sample.usa) [Sample.Audit] [Sample.P2]
           [ ("status", JStr "Enabled"); ("users", JInt 3);
             ("conditions", JStr "none") ]);
    [concrete | concrete | left; discriminate].
Defined.

(** ** Documents of the expected shape *)

Section Shaped.

Variable allowed : exn -> Prop.
Variable time_ok : json -> bool.
Hypothesis time_ok_parse :
  forall v, time_ok v = true -> raises_only allowed (Strptime.strptime v).

Variable user_id : string.
Variable ctx : list (string * json).
Variable current_time : time.

Lemma raises_only_bind {A B : Type} (m : result A) (k : A -> result B) :
  raises_only allowed m ->
  (forall a, m = Ok a -> raises_only allowed (k a)) ->
  raises_only allowed (bind m k).
Proof. destruct m; simpl; auto. Qed.

Lemma optional_time_text (k default : string) (tr : list (string * json)) :
  optional time_ok k tr = true ->
  (exists t, Strptime.parse default = Ok t) ->
  exists v, Py.get (JObj tr) k (JStr default) = Ok v /\
            raises_only allowed (Strptime.strptime v).
Proof.
  unfold optional. simpl. intros H [t Ht].
  destruct (Py.lookup k tr) as [v|].
  - exists v. auto.
  - exists (JStr default). split; [reflexivity|]. simpl. rewrite Ht. exact I.
Qed.

Lemma shaped_time_condition (c : list (string * json)) :
  optional (shaped_time time_ok) "time" c = true ->
  raises_only allowed (time_condition current_time (JObj c)).
Proof.
  unfold optional, time_condition. cbn [Py.get].
  destruct (Py.lookup "time" c) as [v|]; cbn [bind]; [|intros _; exact I].
  destruct v as [| | | |l|tr]; cbn [shaped_time]; try discriminate.
  intros H. apply andb_prop in H. destruct H as [Hs He].
  destruct (Py.truthy (JObj tr)); [|exact I].
  destruct (optional_time_text "start_time" "00:00" tr Hs)
    as (vs & -> & Gs); [eexists; reflexivity|].
  destruct (optional_time_text "end_time" "23:59" tr He)
    as (ve & -> & Ge); [eexists; reflexivity|].
  cbn [bind]. apply raises_only_bind; [exact Gs|]. intros ts _.
  apply raises_only_bind; [exact Ge|]. intros te _. exact I.
Qed.

Lemma shaped_location_condition (c : list (string * json)) :
  optional is_list "location" c = true ->
  exists b, location_condition (JObj ctx) (JObj c) = Ok b.
Proof.
  unfold optional, location_condition. cbn [Py.get].
  destruct (Py.lookup "location" c) as [v|]; cbn [bind].
  - destruct v as [| | | |l|f]; cbn [is_list]; try discriminate. intros _.
    destruct l; cbn [Py.truthy]; [eauto|].
    destruct (Py.lookup "location" ctx); cbn [bind Py.contains]; eauto.
  - intros _. cbn [Py.truthy]. eauto.
Qed.

Lemma any_device_health_condition (c : list (string * json)) :
  exists b, device_health_condition (JObj ctx) (JObj c) = Ok b.
Proof.
  unfold device_health_condition. cbn [Py.get].
  destruct (Py.lookup "device_health" c) as [v|]; cbn [bind].
  - destruct (Py.truthy v); [|eauto].
    destruct (Py.lookup "device_health" ctx); cbn [bind]; eauto.
  - cbn. eauto.
Qed.

Lemma shaped_conditions_met (f : list (string * json)) :
  optional (shaped_conditions time_ok) "conditions" f = true ->
  raises_only allowed
    (conditions_met (JObj ctx) current_time (JObj f)).
Proof.
  unfold optional, conditions_met. cbn [Py.get].
  assert (Hc : forall c,
    optional (shaped_time time_ok) "time" c = true ->
    optional is_list "location" c = true ->
    raises_only allowed
      (time_condition_met <- time_condition current_time (JObj c) ;;
       location_condition_met <- location_condition (JObj ctx) (JObj c) ;;
       device_health_met <- device_health_condition (JObj ctx) (JObj c) ;;
       Ok (time_condition_met && location_condition_met
           && device_health_met))).
  { intros c Ht Hl.
    apply raises_only_bind; [apply shaped_time_condition, Ht|].
    intros t _.
    destruct (shaped_location_condition c Hl) as [l ->].
    destruct (any_device_health_condition c) as [d ->]. exact I. }
  destruct (Py.lookup "conditions" f) as [v|]; cbn [bind].
  - destruct v as [| | | |l|c]; cbn [shaped_conditions]; try discriminate.
    intros H. apply andb_prop in H. destruct H as [Ht Hl].
    apply (Hc c Ht Hl).
  - intros _. apply (Hc []); reflexivity.
Qed.

Lemma shaped_policy_body (p : json) :
  shaped_policy time_ok p = true ->
  raises_only allowed (policy_body user_id (JObj ctx) current_time p).
Proof.
  destruct p as [| | | |l|f]; cbn [shaped_policy]; try discriminate.
  intros H. apply andb_prop in H. destruct H as [H Hg].
  apply andb_prop in H. destruct H as [Hu Hc].
  unfold optional in Hu, Hg.
  unfold policy_body. apply raises_only_bind.
  { unfold policy_enabled. cbn [Py.get].
    destruct (Py.lookup "status" f); exact I. }
  intros enabled _. destruct (negb enabled); [exact I|].
  apply raises_only_bind.
  { unfold policy_applies. cbn [Py.get].
    destruct (Py.lookup "users" f) as [us|]; cbn [bind];
      [destruct us; try discriminate|]; exact I. }
  intros applies _. destruct applies; [|exact I].
  apply raises_only_bind; [apply shaped_conditions_met, Hc|].
  intros met _. destruct met; [|exact I].
  apply raises_only_bind.
  { unfold grants_access. cbn [Py.get].
    destruct (Py.lookup "grant_controls" f) as [gc|]; cbn [bind];
      [destruct gc; try discriminate|]; cbn [Py.get];
      match goal with
      | |- context [Py.lookup ?k ?d] => destruct (Py.lookup k d)
      end; exact I. }
  intros grant _. apply raises_only_bind.
  { unfold policy_name. cbn [Py.get].
    destruct (Py.lookup "name" f); exact I. }
  intros name _. destruct grant; exact I.
Qed.

Lemma shaped_scan (ps : list json) :
  forallb (shaped_policy time_ok) ps = true ->
  raises_only allowed
    (outcome (scan user_id (JObj ctx) current_time ps)).
Proof.
  induction ps as [|p ps IH]; [intros _; exact I|].
  simpl forallb. intros H. apply andb_prop in H. destruct H as [Hp Hps].
  rewrite scan_cons. pose proof (shaped_policy_body p Hp) as Hb.
  destruct (policy_body user_id (JObj ctx) current_time p)
    as [[|name|name]|e]; simpl; auto.
Qed.

End Shaped.

Lemma shaped_find_user (users : json) (user_id : string) :
  shaped_users users = true ->
  exists user, find_user users user_id = Ok user.
Proof.
  destruct users as [| | | |l|f]; cbn [shaped_users]; try discriminate.
  unfold optional, find_user. cbn [Py.get].
  destruct (Py.lookup "users" f) as [v|]; cbn [bind].
  - destruct v as [| | | |us|g]; try discriminate. cbn [Py.iter bind].
    induction us as [|u us IH]; [intros _; simpl; eauto|].
    cbn [forallb]. intros H. apply andb_prop in H. destruct H as [Hu Hus].
    destruct u as [| | | |l|g]; cbn [shaped_user] in Hu; try discriminate.
    cbn [first_user Py.getitem].
    destruct (Py.lookup "id" g) as [id|]; [|discriminate]. cbn [bind].
    destruct (Py.eqb id (JStr user_id)); eauto.
  - intros _. simpl. eauto.
Qed.

Lemma shaped_context_data (context : json) :
  shaped_context context = true ->
  exists c, Py.get context "context" (JObj []) = Ok (JObj c).
Proof.
  destruct context as [| | | |l|f]; cbn [shaped_context]; try discriminate.
  unfold optional. cbn [Py.get].
  destruct (Py.lookup "context" f) as [v|]; [|eauto].
  destruct v; try discriminate. eauto.
Qed.

Lemma shaped_policy_list (time_ok : json -> bool) (self : PolicySimulator) :
  shaped_policies time_ok (policies self) = true ->
  exists ps, policy_list self = Ok ps /\
             forallb (shaped_policy time_ok) ps = true.
Proof.
  unfold policy_list.
  destruct (policies self) as [| | | |l|f]; cbn [shaped_policies];
    try discriminate.
  unfold optional. cbn [Py.get].
  destruct (Py.lookup "policies" f) as [v|]; cbn [bind].
  - destruct v; try discriminate. cbn [Py.iter]. eauto.
  - intros _. exists []. split; reflexivity.
Qed.

Lemma shaped_simulate_access (allowed : exn -> Prop)
    (time_ok : json -> bool)
    (time_ok_parse : forall v, time_ok v = true ->
                               raises_only allowed (Strptime.strptime v))
    (self : PolicySimulator) (clock : datetime) (user_id : string) :
  shaped time_ok self = true ->
  raises_only allowed (outcome (simulate_access self clock user_id)).
Proof.
  unfold shaped. intros H. apply andb_prop in H. destruct H as [H Hc].
  apply andb_prop in H. destruct H as [Hp Hu].
  destruct (data_loaded self) eqn:Hl;
    [|rewrite (not_loaded _ _ _ Hl); exact I].
  destruct (shaped_find_user _ user_id Hu) as [user Huser].
  destruct (shaped_context_data _ Hc) as [c Hctx].
  destruct (shaped_policy_list _ _ Hp) as (ps & Hps & Hall).
  destruct (Py.truthy user) eqn:Ht.
  - assert (Hr : reaches_loop self user_id (JObj c) ps).
    { unfold reaches_loop, known_subject. eauto 6. }
    rewrite (simulate_access_outcome _ clock _ _ _ Hr).
    apply (shaped_scan allowed time_ok time_ok_parse), Hall.
  - unfold simulate_access.
    rewrite data_loaded_guard, Hl; simpl negb; cbv iota.
    rewrite Huser, mbind_lift_ok, Ht. exact I.
Qed.

Lemma text_strptime (v : json) :
  is_text v = true ->
  raises_only (fun x => x = ValueError) (Strptime.strptime v).
Proof.
  destruct v; try discriminate. intros _. simpl.
  destruct (Strptime.parse s) as [t|x] eqn:Hp; simpl; [exact I|].
  apply (parse_raises s x Hp).
Qed.

Lemma time_text_strptime (v : json) :
  is_time_text v = true ->
  raises_only (fun _ => False) (Strptime.strptime v).
Proof.
  destruct v; try discriminate. simpl.
  destruct (Strptime.parse s); [intros _; exact I | discriminate].
Qed.

(** X6: on documents of the expected shape (dicts and lists where the code
    expects them, time values that are texts) the call returns a boolean
    or raises [ValueError]: never [AttributeError], [KeyError] or
    [TypeError]. *)
Theorem shaped_documents_raise_only_ValueError (self : PolicySimulator)
    (clock : datetime) (user_id : string) :
  shaped is_text self = true ->
  (exists b, outcome (simulate_access self clock user_id) = Ok b) \/
  outcome (simulate_access self clock user_id) = Raise ValueError.
Proof.
  intros Hs.
  pose proof (shaped_simulate_access (fun x => x = ValueError) is_text
                text_strptime self clock user_id Hs) as H.
  destruct (outcome (simulate_access self clock user_id)) as [b|e].
  - left. eauto.
  - right. simpl in H. rewrite H. reflexivity.
Qed.

Lemma shaped_documents_raise_only_ValueError_witness :
  (exists b,
     outcome (simulate_access
                (Sample.simulator [Sample.Audit; Sample.Broken; Sample.P2]
                   ["u1"] Sample.usa) Sample.noon "u1") = Ok b) \/
  outcome (simulate_access
             (Sample.simulator [Sample.Audit; Sample.Broken; Sample.P2]
                ["u1"] Sample.usa) Sample.noon "u1") = Raise ValueError.
Proof.
  apply (shaped_documents_raise_only_ValueError
           (Sample.simulator [Sample.Audit; Sample.Broken; Sample.P2] ["u1"]
              Sample.usa)
           Sample.noon "u1"); reflexivity.
Defined.

(** X7: on documents of the expected shape whose time values are texts that
    the parser accepts, the call never raises: it returns a boolean, for
    every subject and at every reading of the clock. *)
Theorem shaped_documents_always_decide (self : PolicySimulator)
    (clock : datetime) (user_id : string) :
  shaped is_time_text self = true ->
  exists b, outcome (simulate_access self clock user_id) = Ok b.
Proof.
  intros Hs.
  pose proof (shaped_simulate_access (fun _ => False) is_time_text
                time_text_strptime self clock user_id Hs) as H.
  destruct (outcome (simulate_access self clock user_id)) as [b|e];
    [eauto | contradiction].
Qed.

Lemma shaped_documents_always_decide_witness :
  exists b,
    outcome (simulate_access
               (Sample.simulator
                  [Sample.Off; Sample.Office; Sample.Night; Sample.P1]
                  ["u1"; "u2"] Sample.usa)
               Sample.noon "u7") = Ok b.
Proof.
  apply (shaped_documents_always_decide
           (Sample.simulator
              [Sample.Off; Sample.Office; Sample.Night; Sample.P1]
              ["u1"; "u2"] Sample.usa)
           Sample.noon "u7").
  reflexivity.
Defined.

(** ** What the context and the clock are used for *)

Lemma contextless_body (user_id : string) (c1 c2 : json)
    (current_time : time) (p : json) :
  contextless p ->
  policy_body user_id c1 current_time p
  = policy_body user_id c2 current_time p.
Proof.
  intros Hp. unfold policy_body, conditions_met.
  destruct (policy_enabled p) as [[|]|]; simpl; try reflexivity.
  destruct (policy_applies user_id p) as [[|]|]; simpl; try reflexivity.
  destruct (Py.get p "conditions" (JObj [])) as [conditions|] eqn:Hc;
    simpl; try reflexivity.
  destruct (Hp conditions Hc) as [Hl Hd].
  assert (Hloc : location_condition c1 conditions
                 = location_condition c2 conditions).
  { unfold location_condition.
    destruct (Py.get conditions "location" (JArr [])) as [l|] eqn:El;
      simpl; [|reflexivity].
    rewrite (Hl l eq_refl). reflexivity. }
  assert (Hdev : device_health_condition c1 conditions
                 = device_health_condition c2 conditions).
  { unfold device_health_condition.
    destruct (Py.get conditions "device_health" (JStr "")) as [d|] eqn:Ed;
      simpl; [|reflexivity].
    rewrite (Hd d eq_refl). reflexivity. }
  rewrite Hloc, Hdev. reflexivity.
Qed.

Lemma contextless_scan (user_id : string) (c1 c2 : json)
    (current_time : time) (ps : list json) :
  Forall contextless ps ->
  scan user_id c1 current_time ps = scan user_id c2 current_time ps.
Proof.
  induction 1 as [|p ps Hp _ IH]; [reflexivity|].
  rewrite !scan_cons, (contextless_body user_id c1 c2 current_time p Hp), IH.
  reflexivity.
Qed.

(** X8: when no policy of the list has a location list or a device health
    to check, the context document is not looked into: two simulators that
    differ only by their (non-empty, dict) context document give the same
    result and the same output. *)
Theorem context_matters_only_through_conditions
    (self self' : PolicySimulator) (clock : datetime) (user_id : string) :
  policies self = policies self' ->
  users self = users self' ->
  is_dict (context self) = true ->
  is_dict (context self') = true ->
  Py.truthy (context self) = true ->
  Py.truthy (context self') = true ->
  (forall ps, policy_list self = Ok ps -> Forall contextless ps) ->
  simulate_access self clock user_id = simulate_access self' clock user_id.
Proof.
  intros Hp Hu Hd Hd' Ht Ht' Hps.
  assert (Hlist : policy_list self' = policy_list self)
    by (unfold policy_list; rewrite Hp; reflexivity).
  unfold simulate_access. rewrite Hlist, <- Hp, <- Hu, Ht, Ht'.
  destruct (negb (Py.truthy (policies self))
            || negb (Py.truthy (users self)) || negb true); [reflexivity|].
  destruct (find_user (users self) user_id) as [user|e]; [|reflexivity].
  rewrite !mbind_lift_ok.
  destruct (negb (Py.truthy user)); [reflexivity|].
  destruct (context self) as [| | | |l|f]; try discriminate.
  destruct (context self') as [| | | |l'|f']; try discriminate.
  cbn [Py.get].
  destruct (Py.lookup "context" f) as [c|],
           (Py.lookup "context" f') as [c'|];
    rewrite !mbind_lift_ok;
    (destruct (policy_list self) as [ps|e] eqn:Els; [|reflexivity]);
    rewrite !mbind_lift_ok;
    match goal with
    | |- context [scan user_id ?a _ ps] =>
        match goal with
        | |- _ = ?rhs =>
            match rhs with
            | context [scan user_id ?b _ ps] =>
                try rewrite (contextless_scan user_id a b (time_of clock)
                               ps (Hps ps eq_refl))
            end
        end
    end; reflexivity.
Qed.

Lemma context_matters_only_through_conditions_witness :
  simulate_access
    (Sample.simulator [Sample.Audit; Sample.Office] ["u1"] Sample.usa)
    Sample.noon "u1"
  = simulate_access
      (Sample.simulator [Sample.Audit; Sample.Office] ["u1"] Sample.canada)
      Sample.noon "u1".
Proof.
  apply (context_matters_only_through_conditions
           (Sample.simulator [Sample.Audit; Sample.Office] ["u1"] Sample.usa)
           (Sample.simulator [Sample.Audit; Sample.Office] ["u1"]
              Sample.canada)
           Sample.noon "u1"); try reflexivity.
  intros ps Hps. injection Hps as <-.
  constructor; [|constructor; [|constructor]];
    intros conditions Hc; injection Hc as <-;
    split; intros v Hv; injection Hv as <-; reflexivity.
Defined.

(** What a time entry comes to, at every time of day at once: nothing to
    check, a window, or an exception. *)
Lemma time_condition_cases (conditions : json) :
  (forall t, time_condition t conditions = Ok true) \/
  (exists ts te, forall t,
     time_condition t conditions = Ok (time_le ts t && time_le t te)) \/
  (exists e, forall t, time_condition t conditions = Raise e).
Proof.
  unfold time_condition.
  destruct (Py.get conditions "time" (JObj [])) as [tr|e]; simpl;
    [|right; right; eauto].
  destruct (Py.truthy tr); [|left; reflexivity].
  destruct (Py.get tr "start_time" (JStr "00:00")) as [s|e]; simpl;
    [|right; right; eauto].
  destruct (Strptime.strptime s) as [ts|e]; simpl; [|right; right; eauto].
  destruct (Py.get tr "end_time" (JStr "23:59")) as [x|e]; simpl;
    [|right; right; eauto].
  destruct (Strptime.strptime x) as [te|e]; simpl; [|right; right; eauto].
  right; left. eauto.
Qed.

Lemma time_le_trans (a b c : time) :
  time_le a b = true -> time_le b c = true -> time_le a c = true.
Proof.
  rewrite !time_le_iff. unfold time_before. lia.
Qed.

Lemma time_condition_between (conditions : json) (t1 t2 t3 : time) :
  time_condition t1 conditions = Ok true ->
  time_condition t3 conditions = Ok true ->
  time_le t1 t2 = true -> time_le t2 t3 = true ->
  time_condition t2 conditions = Ok true.
Proof.
  destruct (time_condition_cases conditions)
    as [H | [(ts & te & H) | (e & H)]]; rewrite !H.
  - auto.
  - intros H1 H3 H12 H23. injection H1 as H1. injection H3 as H3.
    apply andb_prop in H1. apply andb_prop in H3.
    destruct H1 as [H1 _]. destruct H3 as [_ H3].
    rewrite (time_le_trans _ _ _ H1 H12), (time_le_trans _ _ _ H23 H3).
    reflexivity.
  - discriminate.
Qed.

(** X9: the times of day at which a policy's conditions are satisfied, in
    a given context, form an interval: satisfied at two times, they are
    satisfied at every time between the two. *)
Theorem conditions_hold_on_an_interval (context_data : json) (p : json)
    (t1 t2 t3 : time) :
  conditions_met context_data t1 p = Ok true ->
  conditions_met context_data t3 p = Ok true ->
  time_le t1 t2 = true ->
  time_le t2 t3 = true ->
  conditions_met context_data t2 p = Ok true.
Proof.
  unfold conditions_met.
  destruct (Py.get p "conditions" (JObj [])) as [c|e]; simpl;
    [|discriminate].
  intros H1 H3 H12 H23.
  assert (G1 : time_condition t1 c = Ok true).
  { destruct (time_condition t1 c) as [[|]|]; simpl in H1; try discriminate;
      [reflexivity|].
    destruct (location_condition context_data c); simpl in H1;
      [|discriminate].
    destruct (device_health_condition context_data c); simpl in H1;
      discriminate. }
  assert (G3 : time_condition t3 c = Ok true).
  { destruct (time_condition t3 c) as [[|]|]; simpl in H3; try discriminate;
      [reflexivity|].
    destruct (location_condition context_data c); simpl in H3;
      [|discriminate].
    destruct (device_health_condition context_data c); simpl in H3;
      discriminate. }
  rewrite (time_condition_between c t1 t2 t3 G1 G3 H12 H23).
  rewrite G1 in H1. exact H1.
Qed.

Lemma conditions_hold_on_an_interval_witness :
  conditions_met (JObj Sample.usa) (mkTime 12 30 0 0) Sample.Office = Ok true.
Proof.
  apply (conditions_hold_on_an_interval (JObj Sample.usa) Sample.Office
           (mkTime 8 0 0 0) (mkTime 12 30 0 0) (mkTime 18 0 0 0));
    reflexivity.
Defined.

(** X10: whether the conditions of a policy can be evaluated does not
    depend on the hour: when they raise at one time of day they raise the
    same exception at every other, in the same context. *)
Theorem conditions_raise_at_every_hour (context_data : json) (p : json)
    (t1 t2 : time) (e : exn) :
  conditions_met context_data t1 p = Raise e ->
  conditions_met context_data t2 p = Raise e.
Proof.
  unfold conditions_met.
  destruct (Py.get p "conditions" (JObj [])) as [c|x]; simpl; [|auto].
  destruct (time_condition_cases c)
    as [H | [(ts & te & H) | (x & H)]]; rewrite !H; simpl; auto.
  destruct (location_condition context_data c); simpl; [|auto].
  destruct (device_health_condition context_data c); simpl; [|auto].
  discriminate.
Qed.

Lemma conditions_raise_at_every_hour_witness :
  conditions_met (JObj Sample.usa) (mkTime 23 0 0 0) Sample.Broken
  = Raise ValueError.
Proof.
  apply (conditions_raise_at_every_hour (JObj Sample.usa) Sample.Broken
           (mkTime 12 0 0 0) (mkTime 23 0 0 0) ValueError).
  reflexivity.
Defined.

(** ** The directory *)

Lemma known_subject_truthy (users : json) (user_id : string) :
  known_subject users user_id -> Py.truthy users = true.
Proof.
  intros (user & Hf & Ht). unfold find_user in Hf.
  destruct users as [| | | |l|f]; try discriminate.
  destruct f as [|kv f]; [|reflexivity].
  simpl in Hf. injection Hf as <-. discriminate.
Qed.

(** X11: the directory is used for one thing, to tell whether the subject
    is listed: two simulators with the same policies and context whose
    directories both list the subject give the same result and output,
    whatever else the directories hold. *)
Theorem directory_only_tells_whether_listed (self self' : PolicySimulator)
    (clock : datetime) (user_id : string) :
  policies self = policies self' ->
  context self = context self' ->
  known_subject (users self) user_id ->
  known_subject (users self') user_id ->
  simulate_access self clock user_id = simulate_access self' clock user_id.
Proof.
  intros Hp Hc Hk Hk'.
  assert (Hlist : policy_list self' = policy_list self)
    by (unfold policy_list; rewrite Hp; reflexivity).
  unfold simulate_access.
  rewrite Hlist, <- Hp, <- Hc,
    (known_subject_truthy _ _ Hk), (known_subject_truthy _ _ Hk').
  destruct Hk as (user & -> & Ht). destruct Hk' as (user' & -> & Ht').
  rewrite !mbind_lift_ok, Ht, Ht'. reflexivity.
Qed.

Lemma directory_only_tells_whether_listed_witness :
  simulate_access
    (Sample.simulator [Sample.Audit; Sample.P1] ["u1"] Sample.usa)
    Sample.noon "u1"
  = simulate_access
      (Sample.simulator [Sample.Audit; Sample.P1] ["u7"; "u1"; "u2"]
         Sample.usa)
      Sample.noon "u1".
Proof.
  apply (directory_only_tells_whether_listed
           (Sample.simulator [Sample.Audit; Sample.P1] ["u1"] Sample.usa)
           (Sample.simulator [Sample.Audit; Sample.P1] ["u7"; "u1"; "u2"]
              Sample.usa)
           Sample.noon "u1"); concrete.
Defined.

(** X12: a directory record without an "id" that comes before any record
    of the subject makes the call raise [KeyError], with no output and
    whatever the policies are; records after the subject's are not read. *)
Theorem record_without_id_raises_KeyError (self : PolicySimulator)
    (clock : datetime) (user_id : string) (pre post : list json)
    (f : list (string * json)) :
  data_loaded self = true ->
  Py.get (users self) "users" (JArr []) = Ok (JArr (pre ++ JObj f :: post)) ->
  Forall (fun u => exists id, Py.getitem u "id" = Ok id /\
                              Py.eqb id (JStr user_id) = false) pre ->
  Py.lookup "id" f = None ->
  simulate_access self clock user_id = ([], Raise KeyError).
Proof.
  intros Hl Hu Hpre Hid.
  assert (Hf : find_user (users self) user_id = Raise KeyError).
  { unfold find_user. rewrite Hu; simpl. clear Hu.
    induction Hpre as [|u pre (id & Hg & Hne) _ IH]; simpl.
    - rewrite Hid. reflexivity.
    - rewrite Hg; simpl. rewrite Hne. exact IH. }
  unfold simulate_access.
  rewrite data_loaded_guard, Hl; simpl negb; cbv iota.
  rewrite Hf. reflexivity.
Qed.

Lemma record_without_id_raises_KeyError_witness :
  simulate_access
    (mkPolicySimulator "policies.json" "users.json" "context.json"
       (Sample.policies_doc [Sample.P2])
       (JObj [("users", JArr [JObj [("id", JStr "u2")];
                              JObj [("name", JStr "Ann")];
                              JObj [("id", JStr "u1")]])])
       (Sample.context_doc Sample.usa))
    Sample.noon "u1"
  = ([], Raise KeyError).
Proof.
  apply (record_without_id_raises_KeyError _ Sample.noon "u1"
           [JObj [("id", JStr "u2")]] [JObj [("id", JStr "u1")]]
           [("name", JStr "Ann")]); concrete.
Defined.

(** ** Exact and inexact comparisons *)

Lemma prefix_iff (a b : string) :
  String.prefix a b = true <-> exists post, b = (a ++ post)%string.
Proof.
  revert b. induction a as [|c a IH]; intros b.
  - destruct b; simpl; split; eauto.
  - destruct b as [|d b]; simpl.
    + split; [discriminate | intros [post H]; discriminate].
    + destruct (ascii_dec c d) as [->|Hne].
      * rewrite IH. split; intros [post H]; exists post.
        -- rewrite H. reflexivity.
        -- injection H as H. exact H.
      * split; [discriminate|]. intros [post H]. injection H as H _.
        congruence.
Qed.

Lemma substring_iff (a b : string) :
  Py.substring a b = true <->
  exists pre post, b = (pre ++ a ++ post)%string.
Proof.
  induction b as [|c b IH]; cbn [Py.substring].
  - rewrite orb_false_r, prefix_iff. split.
    + intros [post H]. exists EmptyString, post. exact H.
    + intros (pre & post & H). destruct pre; [eauto | discriminate].
  - rewrite orb_true_iff, prefix_iff, IH. split.
    + intros [[post H] | (pre & post & H)].
      * exists EmptyString, post. exact H.
      * exists (String c pre), post. simpl. rewrite H. reflexivity.
    + intros (pre & post & H). destruct pre as [|d pre].
      * left. exists post. exact H.
      * right. simpl in H. injection H as _ H. eauto.
Qed.

(** X13: when the "users" entry of a policy is a text instead of a list,
    the policy targets exactly the subjects whose id occurs somewhere
    inside that text. *)
Theorem text_users_target_by_substring (user_id s : string)
    (fields : list (string * json)) :
  Py.lookup "users" fields = Some (JStr s) ->
  (policy_applies user_id (JObj fields) = Ok true <->
   exists pre post, s = (pre ++ user_id ++ post)%string).
Proof.
  intros Hu. unfold policy_applies. cbn [Py.get]. rewrite Hu.
  cbn [bind Py.contains]. rewrite <- substring_iff.
  split; [intros H; injection H as H; exact H | intros ->; reflexivity].
Qed.

Lemma text_users_target_by_substring_witness :
  policy_applies "user1" Fixture.ForUser10 = Ok true <->
  exists pre post, "user10" = (pre ++ "user1" ++ post)%string.
Proof.
  apply (text_users_target_by_substring "user1" "user10"). reflexivity.
Defined.

Lemma location_list_condition (ctx c : list (string * json))
    (l : list json) :
  Py.lookup "location" c = Some (JArr l) ->
  l <> [] ->
  location_condition (JObj ctx) (JObj c) =
  Ok (existsb (fun y => Py.eqb match Py.lookup "location" ctx with
                               | Some v => v
                               | None => JNull
                               end y) l).
Proof.
  intros Hl Hne. unfold location_condition. cbn [Py.get]. rewrite Hl.
  cbn [bind]. destruct l as [|y l]; [congruence|]. cbn [Py.truthy].
  destruct (Py.lookup "location" ctx); reflexivity.
Qed.

(** X14: a non-empty location list is a test of exact membership: with a
    text location in the context the condition holds exactly when that
    very text is in the list, and a context without location satisfies no
    list made of texts. *)
Theorem location_is_exact_membership (ctx c : list (string * json))
    (l : list json) :
  Py.lookup "location" c = Some (JArr l) ->
  l <> [] ->
  (forall loc, Py.lookup "location" ctx = Some (JStr loc) ->
     (location_condition (JObj ctx) (JObj c) = Ok true <->
      In (JStr loc) l)) /\
  (Py.lookup "location" ctx = None ->
   Forall (fun y => is_text y = true) l ->
   location_condition (JObj ctx) (JObj c) = Ok false).
Proof.
  intros Hl Hne. rewrite (location_list_condition ctx c l Hl Hne). split.
  - intros loc ->. split.
    + intros H. injection H as H. apply existsb_exists in H.
      destruct H as (y & Hin & Hy). apply eqb_text_l in Hy. subst y.
      exact Hin.
    + intros Hin. f_equal. apply existsb_exists. exists (JStr loc).
      split; [exact Hin | apply eqb_text_l; reflexivity].
  - intros -> Hall. f_equal. clear Hl Hne.
    induction Hall as [|y l Hy _ IH]; [reflexivity|].
    cbn [existsb]. rewrite IH. destruct y; try discriminate. reflexivity.
Qed.

Lemma location_is_exact_membership_witness :
  (forall loc, Py.lookup "location" Sample.usa = Some (JStr loc) ->
     (location_condition (JObj Sample.usa)
        (JObj [Sample.locations ["Canada"; "USA"]]) = Ok true <->
      In (JStr loc) [JStr "Canada"; JStr "USA"])) /\
  (Py.lookup "location" Sample.usa = None ->
   Forall (fun y => is_text y = true) [JStr "Canada"; JStr "USA"] ->
   location_condition (JObj Sample.usa)
     (JObj [Sample.locations ["Canada"; "USA"]]) = Ok false).
Proof.
  apply (location_is_exact_membership Sample.usa
           [Sample.locations ["Canada"; "USA"]]
           [JStr "Canada"; JStr "USA"]);
    [reflexivity | discriminate].
Defined.

(** X15: a required device health that is a non-empty text is satisfied
    exactly when the context carries that very text (same case, same
    characters); a context without device health does not satisfy it. *)
Theorem device_health_is_exact (ctx c : list (string * json)) (r : string) :
  Py.lookup "device_health" c = Some (JStr r) ->
  r <> "" ->
  (device_health_condition (JObj ctx) (JObj c) = Ok true <->
   Py.lookup "device_health" ctx = Some (JStr r)).
Proof.
  intros Hr Hne. unfold device_health_condition. cbn [Py.get]. rewrite Hr.
  cbn [bind Py.truthy].
  assert (Ht : negb (String.eqb r "") = true).
  { destruct (String.eqb_spec r ""); [contradiction | reflexivity]. }
  rewrite Ht.
  destruct (Py.lookup "device_health" ctx) as [v|]; cbn [bind].
  - split.
    + intros H. injection H as H. apply eqb_text in H. subst v. reflexivity.
    + intros H. injection H as ->. f_equal. apply eqb_text. reflexivity.
  - split; discriminate.
Qed.

Lemma device_health_is_exact_witness :
  device_health_condition (JObj [("device_health", JStr "Compliant")])
    (JObj [("device_health", JStr "compliant")]) = Ok true <->
  Py.lookup "device_health" [("device_health", JStr "Compliant")]
  = Some (JStr "compliant").
Proof.
  apply (device_health_is_exact [("device_health", JStr "Compliant")]
           [("device_health", JStr "compliant")] "compliant");
    [reflexivity | discriminate].
Defined.

(** ** Loading the files *)

Lemma run_unfold (fs : string -> file) (pf uf cf : string)
    (clock : datetime) (user_id : string) :
  run fs pf uf cf clock user_id =
  (output (__init__ fs pf uf cf)
     ++ output (simulate_access
                  (mkPolicySimulator pf uf cf (loaded fs pf) (loaded fs uf)
                     (loaded fs cf)) clock user_id),
   outcome (simulate_access
              (mkPolicySimulator pf uf cf (loaded fs pf) (loaded fs uf)
                 (loaded fs cf)) clock user_id)).
Proof.
  unfold run. rewrite (mbind_ok _ _ _ _ (init_returns fs pf uf cf)).
  reflexivity.
Qed.

Lemma init_output (fs : string -> file) (pf uf cf : string) :
  output (__init__ fs pf uf cf) =
  output (_load_data fs pf) ++ output (_load_data fs uf)
    ++ output (_load_data fs cf).
Proof.
  unfold __init__.
  rewrite (mbind_ok _ _ _ _ (load_data_returns fs pf)).
  rewrite (mbind_ok _ _ _ _ (load_data_returns fs uf)).
  rewrite (mbind_ok _ _ _ _ (load_data_returns fs cf)).
  unfold output at 1. cbn [fst ret]. unfold output at 4. cbn [fst].
  rewrite app_nil_r. reflexivity.
Qed.

(** X16: loading never raises and never stops early.  A file that cannot
    be opened or decoded gives the empty dict, with one error logged and
    then printed; a file that loads gives its data, with one entry logged;
    and the constructor reads the policy, user and context files in that
    order, each whatever happened to the ones before. *)
Theorem loading_never_raises (fs : string -> file) (pf uf cf : string) :
  (forall path,
     (forall data, fs path = Json data ->
        _load_data fs path = ([Logged INFO (LoadedFrom path)], Ok data)) /\
     (failed (fs path) = true ->
        exists m,
          _load_data fs path = ([Logged ERROR m; Printed m], Ok (JObj []))))
  /\
  exists self,
    __init__ fs pf uf cf =
      (output (_load_data fs pf) ++ output (_load_data fs uf)
         ++ output (_load_data fs cf), Ok self) /\
    _load_data fs pf = (output (_load_data fs pf), Ok (policies self)) /\
    _load_data fs uf = (output (_load_data fs uf), Ok (users self)) /\
    _load_data fs cf = (output (_load_data fs cf), Ok (context self)).
Proof.
  split.
  - intros path. unfold _load_data, failed. split.
    + intros data ->. reflexivity.
    + destruct (fs path); [discriminate | ..];
        intros _; eexists; reflexivity.
  - exists (mkPolicySimulator pf uf cf (loaded fs pf) (loaded fs uf)
              (loaded fs cf)).
    rewrite <- init_output. repeat split.
    + apply init_returns.
    + apply load_data_returns.
    + apply load_data_returns.
    + apply load_data_returns.
Qed.

Lemma falsy_not_loaded (fs : string -> file) (pf uf cf : string)
    (path : string) (d : json) :
  path = pf \/ path = uf \/ path = cf ->
  fs path = Json d ->
  Py.truthy d = false ->
  data_loaded (mkPolicySimulator pf uf cf (loaded fs pf) (loaded fs uf)
                 (loaded fs cf)) = false.
Proof.
  intros Hp Hd Ht. unfold data_loaded; simpl.
  assert (Hl : Py.truthy (loaded fs path) = false)
    by (unfold loaded; rewrite Hd; exact Ht).
  destruct Hp as [<- | [<- | <-]]; rewrite Hl;
    repeat rewrite andb_false_r; reflexivity.
Qed.

Lemma loaded_logged (fs : string -> file) (pf uf cf : string)
    (path : string) (d : json) :
  path = pf \/ path = uf \/ path = cf ->
  fs path = Json d ->
  In (Logged INFO (LoadedFrom path)) (output (__init__ fs pf uf cf)).
Proof.
  intros Hp Hd. rewrite init_output.
  assert (Hin : In (Logged INFO (LoadedFrom path))
                  (output (_load_data fs path))).
  { unfold _load_data. rewrite Hd. left. reflexivity. }
  destruct Hp as [<- | [<- | <-]].
  - apply in_or_app. left. exact Hin.
  - apply in_or_app. right. apply in_or_app. left. exact Hin.
  - apply in_or_app. right. apply in_or_app. right. exact Hin.
Qed.

(** X17: a file that loads but holds an empty document (an empty dict or
    list, null, zero, the empty text or false) is treated as not loaded:
    the file is logged as loaded, and the call then reports "data is not
    loaded" and returns [False]. *)
Theorem empty_document_counts_as_not_loaded (fs : string -> file)
    (pf uf cf : string) (clock : datetime) (user_id : string)
    (path : string) (d : json) :
  path = pf \/ path = uf \/ path = cf ->
  fs path = Json d ->
  Py.truthy d = false ->
  run fs pf uf cf clock user_id =
    (output (__init__ fs pf uf cf)
       ++ [Printed DataNotLoaded; Logged ERROR DataNotLoaded], Ok false) /\
  In (Logged INFO (LoadedFrom path)) (output (__init__ fs pf uf cf)).
Proof.
  intros Hp Hd Ht. split.
  - rewrite run_unfold.
    rewrite (not_loaded _ clock user_id
               (falsy_not_loaded fs pf uf cf path d Hp Hd Ht)).
    reflexivity.
  - apply (loaded_logged fs pf uf cf path d Hp Hd).
Qed.

Lemma empty_document_counts_as_not_loaded_witness :
  let fs := Sample.disk (Json (Sample.policies_doc [Sample.P2]))
              (Json (Sample.users_doc ["u1"])) (Json (JObj [])) in
  run fs "policies.json" "users.json" "context.json" Sample.noon "u1" =
    ([Logged INFO (LoadedFrom "policies.json");
      Logged INFO (LoadedFrom "users.json");
      Logged INFO (LoadedFrom "context.json");
      Printed DataNotLoaded; Logged ERROR DataNotLoaded], Ok false) /\
  In (Logged INFO (LoadedFrom "context.json"))
     (output (__init__ fs "policies.json" "users.json" "context.json")).
Proof.
  intros fs.
  apply (empty_document_counts_as_not_loaded fs
           "policies.json" "users.json" "context.json" Sample.noon "u1"
           "context.json" (JObj []));
    [right; right; reflexivity | reflexivity | reflexivity].
Defined.

Lemma loading_never_raises_witness :
  exists m,
    _load_data (Sample.disk Malformed Missing Unreadable) "policies.json"
    = ([Logged ERROR m; Printed m], Ok (JObj [])).
Proof.
  apply (proj1 (loading_never_raises
                  (Sample.disk Malformed Missing Unreadable)
                  "policies.json" "users.json" "context.json")
           "policies.json").
  reflexivity.
Defined.

(** ** The command line *)

Lemma inner_not_printed (out : list event) (m : main_message) :
  ~ In (MainPrinted m) (List.map Inner out).
Proof.
  induction out as [|e out IH]; simpl; [tauto|].
  intros [H | H]; [discriminate | auto].
Qed.

Section Main.

Variable path_exists : string -> bool.
Variable fs : string -> file.
Variable clock : datetime.
Variable args : Namespace.

Let pf := arg_policy_file args.
Let uf := arg_user_file args.
Let cf := arg_context_file args.
Let uid := arg_user_id args.

Lemma main_all_exist :
  path_exists pf = true -> path_exists uf = true -> path_exists cf = true ->
  main path_exists fs clock args =
  match run fs pf uf cf clock uid with
  | (out, Ok b) =>
      (List.map Inner out ++
       [MainPrinted (if b then AccessGrantedTo uid else AccessDeniedTo uid)],
       Ok tt)
  | (out, Raise e) => (List.map Inner out, Raise e)
  end.
Proof.
  unfold main, pf, uf, cf, uid. intros -> -> ->. reflexivity.
Qed.

Lemma main_missing :
  path_exists pf && path_exists uf && path_exists cf = false ->
  exists m,
    (m = PolicyFileMissing pf \/ m = UserFileMissing uf \/
     m = ContextFileMissing cf) /\
    forall fs' clock',
      main path_exists fs' clock' args
      = ([MainPrinted m; MainLogged ERROR m], Ok tt).
Proof.
  unfold main, pf, uf, cf. intros H.
  destruct (path_exists (arg_policy_file args)); simpl negb; cbv iota;
    [destruct (path_exists (arg_user_file args)); simpl negb; cbv iota;
     [destruct (path_exists (arg_context_file args)); simpl negb; cbv iota;
      [discriminate|]|]|];
    eexists; (split; [|intros fs' clock'; reflexivity]); auto.
Qed.

(** X18: when one of the three files does not exist, [main] prints and
    then logs as an error the "not found" message of the first missing file,
    in the order policy, user, context, and returns: it opens no file and
    reads no clock (the same two lines come out on any file contents and at
    any time), and it prints no decision. *)
Theorem main_without_a_file_decides_nothing :
  path_exists pf && path_exists uf && path_exists cf = false ->
  (path_exists pf = false ->
   main path_exists fs clock args =
     ([MainPrinted (PolicyFileMissing pf);
       MainLogged ERROR (PolicyFileMissing pf)], Ok tt)) /\
  (path_exists pf = true -> path_exists uf = false ->
   main path_exists fs clock args =
     ([MainPrinted (UserFileMissing uf);
       MainLogged ERROR (UserFileMissing uf)], Ok tt)) /\
  (path_exists pf = true -> path_exists uf = true ->
   path_exists cf = false ->
   main path_exists fs clock args =
     ([MainPrinted (ContextFileMissing cf);
       MainLogged ERROR (ContextFileMissing cf)], Ok tt)) /\
  (forall fs' clock',
     main path_exists fs' clock' args = main path_exists fs clock args) /\
  snd (main path_exists fs clock args) = Ok tt /\
  List.length (fst (main path_exists fs clock args)) = 2 /\
  forall u,
    ~ In (MainPrinted (AccessGrantedTo u))
         (fst (main path_exists fs clock args)) /\
    ~ In (MainPrinted (AccessDeniedTo u))
         (fst (main path_exists fs clock args)).
Proof.
  intros H.
  split; [|split; [|split]].
  - unfold main, pf. intros ->. reflexivity.
  - unfold main, pf, uf. intros -> ->. reflexivity.
  - unfold main, pf, uf, cf. intros -> -> ->. reflexivity.
  - destruct (main_missing H) as (m & Hm & Hmain).
    split; [intros fs' clock'; rewrite !Hmain; reflexivity|].
    rewrite Hmain. repeat split; simpl;
      intros [E | [E | []]];
      destruct Hm as [-> | [-> | ->]]; discriminate.
Qed.

(** X19: [main] prints "access granted" only for the subject asked for, and
    only when the three files exist, each has loaded, and the simulator
    built from their contents returned [True]. *)
Theorem main_grants_only_on_a_grant (u : string) :
  In (MainPrinted (AccessGrantedTo u))
     (fst (main path_exists fs clock args)) ->
  u = uid /\
  path_exists pf = true /\ path_exists uf = true /\ path_exists cf = true /\
  exists p us c,
    fs pf = Json p /\ fs uf = Json us /\ fs cf = Json c /\
    outcome (simulate_access (mkPolicySimulator pf uf cf p us c) clock uid)
    = Ok true.
Proof.
  intros Hin.
  destruct (path_exists pf && path_exists uf && path_exists cf) eqn:He.
  - apply andb_prop in He. destruct He as [He Hc].
    apply andb_prop in He. destruct He as [Hp Hu].
    rewrite (main_all_exist Hp Hu Hc), run_unfold in Hin.
    set (self := mkPolicySimulator pf uf cf (loaded fs pf) (loaded fs uf)
                   (loaded fs cf)) in *.
    destruct (outcome (simulate_access self clock uid)) as [b|e] eqn:Ho;
      cbn [fst] in Hin.
    + apply in_app_or in Hin. destruct Hin as [Hin | [Hin | []]];
        [destruct (inner_not_printed _ _ Hin)|].
      destruct b; [|discriminate]. injection Hin as <-.
      assert (Hl : data_loaded self = true).
      { destruct (data_loaded self) eqn:Hl; [reflexivity|].
        rewrite (not_loaded _ clock uid Hl) in Ho. discriminate. }
      unfold data_loaded, self in Hl; simpl in Hl.
      apply andb_prop in Hl. destruct Hl as [Hl Hlc].
      apply andb_prop in Hl. destruct Hl as [Hlp Hlu].
      unfold self, loaded in Ho. unfold loaded in Hlp, Hlu, Hlc.
      destruct (fs pf) as [p| | |]; try discriminate.
      destruct (fs uf) as [us| | |]; try discriminate.
      destruct (fs cf) as [c| | |]; try discriminate.
      repeat split; auto. exists p, us, c. auto.
    + destruct (inner_not_printed _ _ Hin).
  - destruct (main_missing He) as (m & Hm & Hmain).
    rewrite Hmain in Hin. simpl in Hin.
    destruct Hin as [E | [E | []]];
      destruct Hm as [-> | [-> | ->]]; discriminate.
Qed.

End Main.

Lemma main_without_a_file_decides_nothing_witness :
  let fs := Sample.disk (Json (Sample.policies_doc [Sample.P2]))
              (Json (Sample.users_doc ["u1"])) Missing in
  main Fixture.no_context_file fs Sample.noon Fixture.args =
    ([MainPrinted (ContextFileMissing "context.json");
      MainLogged ERROR (ContextFileMissing "context.json")], Ok tt) /\
  (forall fs' clock',
     main Fixture.no_context_file fs' clock' Fixture.args
     = main Fixture.no_context_file fs Sample.noon Fixture.args) /\
  forall u,
    ~ In (MainPrinted (AccessGrantedTo u))
         (fst (main Fixture.no_context_file fs Sample.noon Fixture.args)) /\
    ~ In (MainPrinted (AccessDeniedTo u))
         (fst (main Fixture.no_context_file fs Sample.noon Fixture.args)).
Proof.
  intros fs.
  destruct (main_without_a_file_decides_nothing Fixture.no_context_file fs
              Sample.noon Fixture.args eq_refl)
    as (_ & _ & Hctx & Hsame & _ & _ & Hno).
  split; [apply Hctx; reflexivity|]. split; [exact Hsame | exact Hno].
Defined.

Lemma main_grants_only_on_a_grant_witness :
  let fs := Sample.disk (Json (Sample.policies_doc [Sample.P2]))
              (Json (Sample.users_doc ["u1"]))
              (Json (Sample.context_doc Sample.usa)) in
  "u1" = "u1" /\
  Fixture.present "policies.json" = true /\
  Fixture.present "users.json" = true /\
  Fixture.present "context.json" = true /\
  exists p us c,
    fs "policies.json" = Json p /\ fs "users.json" = Json us /\
    fs "context.json" = Json c /\
    outcome (simulate_access
               (mkPolicySimulator "policies.json" "users.json"
                  "context.json" p us c) Sample.noon "u1")
    = Ok true.
Proof.
  intros fs.
  apply (main_grants_only_on_a_grant Fixture.present fs Sample.noon
           Fixture.args "u1").
  simpl. repeat (first [left; reflexivity | right]).
Defined.

Section MainRuns.

Variable path_exists : string -> bool.
Variable fs : string -> file.
Variable clock : datetime.
Variable args : Namespace.

Let pf := arg_policy_file args.
Let uf := arg_user_file args.
Let cf := arg_context_file args.
Let uid := arg_user_id args.

Hypothesis policy_file_exists : path_exists pf = true.
Hypothesis user_file_exists : path_exists uf = true.
Hypothesis context_file_exists : path_exists cf = true.

(** X20: a file that exists but cannot be read or decoded is reported to
    the user as a denial: after the messages of the loading, [main] ends
    with "data is not loaded" and "access denied" for the subject. *)
Theorem unreadable_file_is_printed_as_denial :
  failed (fs pf) = true \/ failed (fs uf) = true \/ failed (fs cf) = true ->
  main path_exists fs clock args =
    (List.map Inner (output (__init__ fs pf uf cf))
       ++ [Inner (Printed DataNotLoaded);
           Inner (Logged ERROR DataNotLoaded);
           MainPrinted (AccessDeniedTo uid)], Ok tt).
Proof.
  intros Hfail.
  rewrite (main_all_exist path_exists fs clock args
             policy_file_exists user_file_exists context_file_exists).
  fold pf uf cf uid. rewrite run_unfold, not_loaded.
  - unfold output at 2, outcome. cbn [fst snd].
    rewrite List.map_app, <- app_assoc. reflexivity.
  - unfold data_loaded; simpl.
    destruct Hfail as [H | [H | H]];
      rewrite (failed_not_truthy _ _ H);
      repeat rewrite andb_false_r; reflexivity.
Qed.

(** X21: with the three files there, [main] ends in one of three ways and
    tells them apart: "access granted" exactly when the simulator returned
    [True], "access denied" exactly when it returned [False], and when the
    simulator raised the exception goes through [main], which then prints
    no decision. *)
Theorem main_prints_the_decision_or_raises :
  (In (MainPrinted (AccessGrantedTo uid))
      (fst (main path_exists fs clock args)) <->
   outcome (run fs pf uf cf clock uid) = Ok true) /\
  (In (MainPrinted (AccessDeniedTo uid))
      (fst (main path_exists fs clock args)) <->
   outcome (run fs pf uf cf clock uid) = Ok false) /\
  (forall e,
     snd (main path_exists fs clock args) = Raise e <->
     outcome (run fs pf uf cf clock uid) = Raise e) /\
  (forall e,
     outcome (run fs pf uf cf clock uid) = Raise e ->
     fst (main path_exists fs clock args)
     = List.map Inner (output (run fs pf uf cf clock uid))).
Proof.
  rewrite (main_all_exist path_exists fs clock args
             policy_file_exists user_file_exists context_file_exists).
  fold pf uf cf uid.
  destruct (run fs pf uf cf clock uid) as [out [b|x]];
    unfold outcome, output; cbn [fst snd].
  - split; [|split; [|split]].
    + split.
      * intros Hin. apply in_app_or in Hin.
        destruct Hin as [Hin | [Hin | []]];
          [destruct (inner_not_printed _ _ Hin)|].
        destruct b; [reflexivity | discriminate].
      * intros H. injection H as ->. apply in_or_app. right. left.
        reflexivity.
    + split.
      * intros Hin. apply in_app_or in Hin.
        destruct Hin as [Hin | [Hin | []]];
          [destruct (inner_not_printed _ _ Hin)|].
        destruct b; [discriminate | reflexivity].
      * intros H. injection H as ->. apply in_or_app. right. left.
        reflexivity.
    + intros e. split; discriminate.
    + discriminate.
  - split; [|split; [|split]].
    + split; [intros Hin; destruct (inner_not_printed _ _ Hin)
             | discriminate].
    + split; [intros Hin; destruct (inner_not_printed _ _ Hin)
             | discriminate].
    + intros e. split; intros H; injection H as ->; reflexivity.
    + reflexivity.
Qed.

End MainRuns.

Lemma unreadable_file_is_printed_as_denial_witness :
  main Fixture.present
    (Sample.disk (Json (Sample.policies_doc [Sample.P2])) Malformed
       (Json (Sample.context_doc Sample.usa)))
    Sample.noon Fixture.args
  = ([Inner (Logged INFO (LoadedFrom "policies.json"));
      Inner (Logged ERROR (InvalidJson "users.json"));
      Inner (Printed (InvalidJson "users.json"));
      Inner (Logged INFO (LoadedFrom "context.json"));
      Inner (Printed DataNotLoaded);
      Inner (Logged ERROR DataNotLoaded);
      MainPrinted (AccessDeniedTo "u1")], Ok tt).
Proof.
  apply (unreadable_file_is_printed_as_denial Fixture.present
           (Sample.disk (Json (Sample.policies_doc [Sample.P2])) Malformed
              (Json (Sample.context_doc Sample.usa)))
           Sample.noon Fixture.args);
    [reflexivity | reflexivity | reflexivity | right; left; reflexivity].
Defined.

Lemma main_prints_the_decision_or_raises_witness :
  let fs := Sample.disk
              (Json (Sample.policies_doc [Sample.Audit; Sample.Broken]))
              (Json (Sample.users_doc ["u1"]))
              (Json (Sample.context_doc Sample.usa)) in
  snd (main Fixture.present fs Sample.noon Fixture.args) = Raise ValueError /\
  fst (main Fixture.present fs Sample.noon Fixture.args)
  = [Inner (Logged INFO (LoadedFrom "policies.json"));
     Inner (Logged INFO (LoadedFrom "users.json"));
     Inner (Logged INFO (LoadedFrom "context.json"));
     Inner (Logged INFO (PolicyNotGranting (JStr "Audit") "u1"))].
Proof.
  intros fs.
  destruct (main_prints_the_decision_or_raises Fixture.present fs
              Sample.noon Fixture.args eq_refl eq_refl eq_refl)
    as (_ & _ & Hraise & Hout).
  split.
  - apply Hraise. reflexivity.
  - rewrite (Hout ValueError eq_refl). reflexivity.
Defined.
